(** * Promptomatik: authentication token lifecycle

    A shallow embedding of the client-side session code
    ([src/auth/AuthContext.js], the [ApiService.getToken] accessor) and of
    the serverless registration handlers, with the properties of the
    specification stated over it.

    Conventions of the embedding.
    - JavaScript values are the inductive type [value]; numbers are
      integers ([Z]): every number the program computes with (epoch
      seconds and milliseconds, counters) is integral and far below 2^53,
      where IEEE doubles are exact.
    - Strings are Rocq strings, read as sequences of Latin-1 code units.
    - [localStorage] is a finite map from keys to strings.
    - A [try]/[catch] is a match on a [completion]; an [await] is the
      completion chosen by the environment (network, database, crypto). *)

From Stdlib Require Import ZArith String Ascii Strings.Byte List Bool Lia.
From stdpp Require Import gmap strings.
Import ListNotations.

Local Open Scope string_scope.
Local Open Scope Z_scope.

(* ===================================================================== *)
(** ** JavaScript values *)
(* ===================================================================== *)

#[local] Set Warnings "-register-all".

Inductive value : Type :=
| VUndefined
| VNull
| VBool (b : bool)
| VNum (n : Z)
| VStr (s : string)
| VArr (items : list value)
| VObj (props : list (string * value)).

(** What a [throw] carries. Every value thrown in this program is an
    [Error] instance with a [message] and a [stack]: its own [throw]
    statements build one with [new Error], and the platform operations
    (fetch, JSON.parse, atob, a property read on [null], D1, storage)
    reject with an [Error] or a [DOMException]. *)
Inductive thrown : Type :=
| ThrownError (message stack : string).

Definition error_message (e : thrown) : string :=
  match e with ThrownError m _ => m end.

Definition error_stack (e : thrown) : string :=
  match e with ThrownError _ st => st end.

(** Result of evaluating an expression or awaiting a promise. *)
Inductive completion (A : Type) : Type :=
| Normal (a : A)
| Throw (e : thrown).
Arguments Normal {A} a.
Arguments Throw {A} e.

Definition cbind {A B} (c : completion A) (k : A -> completion B) : completion B :=
  match c with
  | Normal a => k a
  | Throw e => Throw e
  end.

Notation "'do' x <- c ; k" := (cbind c (fun x => k))
  (at level 10, x name, c at level 100, k at level 200).

(** The [TypeError] of reading a property of [null] or [undefined], or of
    calling something that is not a function. *)
Definition TypeError (msg : string) : thrown := ThrownError msg "TypeError".

(** [!!v] *)
Definition truthy (v : value) : bool :=
  match v with
  | VUndefined | VNull => false
  | VBool b => b
  | VNum n => negb (n =? 0)
  | VStr s => negb (String.eqb s "")
  | VArr _ | VObj _ => true
  end.

(** [v] is [null] or [undefined]. *)
Definition nullish (v : value) : bool :=
  match v with
  | VUndefined | VNull => true
  | _ => false
  end.

(** [a || b] *)
Definition js_or (a b : value) : value := if truthy a then a else b.

(** [typeof v] *)
Definition typeof (v : value) : string :=
  match v with
  | VUndefined => "undefined"
  | VNull | VArr _ | VObj _ => "object"
  | VBool _ => "boolean"
  | VNum _ => "number"
  | VStr _ => "string"
  end.

Fixpoint assoc (k : string) (ps : list (string * value)) : option value :=
  match ps with
  | [] => None
  | (k', v) :: ps' => if String.eqb k k' then Some v else assoc k ps'
  end.

(** Own-property lookup [o.k] on a value that is neither [null] nor
    [undefined]; primitives and arrays have none of the names the program
    reads. *)
Definition prop (o : value) (k : string) : value :=
  match o with
  | VObj ps => match assoc k ps with Some v => v | None => VUndefined end
  | _ => VUndefined
  end.

(** [o.k]: throws on [null] and [undefined]. *)
Definition get (o : value) (k : string) : completion value :=
  match o with
  | VUndefined | VNull => Throw (TypeError "Cannot read properties of null or undefined")
  | _ => Normal (prop o k)
  end.

(** [o?.k] *)
Definition get_opt (o : value) (k : string) : value :=
  match o with
  | VUndefined | VNull => VUndefined
  | _ => prop o k
  end.

(** Assignment of one property in an object literal or spread: an
    existing key keeps its place. *)
Fixpoint set_prop (k : string) (v : value) (ps : list (string * value))
  : list (string * value) :=
  match ps with
  | [] => [(k, v)]
  | (k', v') :: ps' =>
      if String.eqb k k' then (k, v) :: ps' else (k', v') :: set_prop k v ps'
  end.

(* ===================================================================== *)
(** ** Number and string conversions *)
(* ===================================================================== *)

Definition digit_char (d : Z) : ascii :=
  ascii_of_N (Z.to_N (48 + d)).

Fixpoint pos_digits (fuel : nat) (n : Z) (acc : string) : string :=
  match fuel with
  | O => acc
  | S fuel' =>
      let acc' := String (digit_char (n mod 10)) acc in
      if n / 10 =? 0 then acc' else pos_digits fuel' (n / 10) acc'
  end.

(** Decimal numeral of an integer, as [Number.prototype.toString] prints
    it. *)
Definition Z_to_string (n : Z) : string :=
  if n <? 0 then String "-" (pos_digits (Z.to_nat (Z.log2 (- n)) + 1) (- n) "")
  else pos_digits (Z.to_nat (Z.log2 n) + 1) n "".

Fixpoint join (sep : string) (l : list string) : string :=
  match l with
  | [] => ""
  | [s] => s
  | s :: l' => s ++ sep ++ join sep l'
  end.

(** [String(v)] *)
Fixpoint to_string (v : value) : string :=
  match v with
  | VUndefined => "undefined"
  | VNull => "null"
  | VBool true => "true"
  | VBool false => "false"
  | VNum n => Z_to_string n
  | VStr s => s
  | VArr items =>
      join "," (map (fun x => match x with
                              | VUndefined | VNull => ""
                              | _ => to_string x
                              end) items)
  | VObj _ => "[object Object]"
  end.

(* ===================================================================== *)
(** ** [JSON.stringify] *)
(* ===================================================================== *)

Definition hex_digit (d : Z) : ascii :=
  if d <? 10 then ascii_of_N (Z.to_N (48 + d)) else ascii_of_N (Z.to_N (87 + d)).

Definition code (c : ascii) : Z := Z.of_N (N_of_ascii c).

Definition dquote : ascii := "034"%char.

(** One character inside a JSON string literal. *)
Definition quote_char (c : ascii) : string :=
  let n := code c in
  if n =? 34 then String "\" (String dquote "")
  else if n =? 92 then "\\"
  else if n =? 8 then "\b"
  else if n =? 12 then "\f"
  else if n =? 10 then "\n"
  else if n =? 13 then "\r"
  else if n =? 9 then "\t"
  else if n <? 32 then
    "\u00" ++ String (hex_digit (n / 16)) (String (hex_digit (n mod 16)) "")
  else String c "".

Fixpoint quote_chars (s : string) : string :=
  match s with
  | EmptyString => ""
  | String c s' => quote_char c ++ quote_chars s'
  end.

Definition quote (s : string) : string :=
  String dquote (quote_chars s ++ String dquote "").

(** [JSON.stringify v] for a value that is not [undefined]: properties
    whose value is [undefined] are left out, [undefined] array elements
    print as [null]. *)
Fixpoint stringify (v : value) : string :=
  match v with
  | VUndefined => "null"
  | VNull => "null"
  | VBool true => "true"
  | VBool false => "false"
  | VNum n => Z_to_string n
  | VStr s => quote s
  | VArr items => "[" ++ join "," (map stringify items) ++ "]"
  | VObj props =>
      "{" ++ join ","
        ((fix members (ps : list (string * value)) : list string :=
            match ps with
            | [] => []
            | (k, VUndefined) :: ps' => members ps'
            | (k, x) :: ps' => (quote k ++ ":" ++ stringify x) :: members ps'
            end) props) ++ "}"
  end.

(** [JSON.stringify v]: [undefined] for [undefined], a string otherwise. *)
Definition JSON_stringify (v : value) : value :=
  match v with
  | VUndefined => VUndefined
  | _ => VStr (stringify v)
  end.

(* ===================================================================== *)
(** ** Platform string primitives: [btoa], [atob], [split], [TextEncoder] *)
(* ===================================================================== *)

Definition chr (n : Z) : ascii := ascii_of_N (Z.to_N n).

(** The base64 alphabet [A-Za-z0-9+/]. *)
Definition b64_char (n : Z) : ascii :=
  if n <? 26 then chr (65 + n)
  else if n <? 52 then chr (97 + (n - 26))
  else if n <? 62 then chr (48 + (n - 52))
  else if n =? 62 then "+"%char
  else "/"%char.

Definition b64_value (c : ascii) : option Z :=
  let n := code c in
  if (65 <=? n) && (n <=? 90) then Some (n - 65)
  else if (97 <=? n) && (n <=? 122) then Some (n - 97 + 26)
  else if (48 <=? n) && (n <=? 57) then Some (n - 48 + 52)
  else if n =? 43 then Some 62
  else if n =? 47 then Some 63
  else None.

Fixpoint b64_encode (l : list Z) : string :=
  match l with
  | [] => ""
  | [a] =>
      String (b64_char (a / 4)) (String (b64_char (a mod 4 * 16)) "==")
  | [a; b] =>
      String (b64_char (a / 4))
        (String (b64_char (a mod 4 * 16 + b / 16))
           (String (b64_char (b mod 16 * 4)) "="))
  | a :: b :: c :: rest =>
      String (b64_char (a / 4))
        (String (b64_char (a mod 4 * 16 + b / 16))
           (String (b64_char (b mod 16 * 4 + c / 64))
              (String (b64_char (c mod 64)) (b64_encode rest))))
  end.

(** The 6-bit groups that [b64_encode] prints, padding apart. *)
Fixpoint sextets (l : list Z) : list Z :=
  match l with
  | [] => []
  | [a] => [a / 4; a mod 4 * 16]
  | [a; b] => [a / 4; a mod 4 * 16 + b / 16; b mod 16 * 4]
  | a :: b :: c :: rest =>
      a / 4 :: (a mod 4 * 16 + b / 16) :: (b mod 16 * 4 + c / 64) :: c mod 64
        :: sextets rest
  end.

(** [btoa s]. The platform raises [InvalidCharacterError] for a code unit
    above 0xFF; a Latin-1 string has none. *)
Definition btoa (s : string) : string :=
  b64_encode (map code (list_ascii_of_string s)).

Definition is_ascii_space (c : ascii) : bool :=
  let n := code c in
  (n =? 9) || (n =? 10) || (n =? 12) || (n =? 13) || (n =? 32).

Definition is_eq_sign (c : ascii) : bool := code c =? 61.

(** At most two trailing [=] are dropped. *)
Definition strip_padding (cs : list ascii) : list ascii :=
  match rev cs with
  | p :: q :: r =>
      if is_eq_sign p then (if is_eq_sign q then rev r else rev (q :: r)) else cs
  | [p] => if is_eq_sign p then [] else cs
  | [] => cs
  end.

Fixpoint b64_values (cs : list ascii) : option (list Z) :=
  match cs with
  | [] => Some []
  | c :: cs' =>
      match b64_value c, b64_values cs' with
      | Some v, Some vs => Some (v :: vs)
      | _, _ => None
      end
  end.

Fixpoint b64_decode (vs : list Z) : string :=
  match vs with
  | a :: b :: c :: d :: rest =>
      String (chr (a * 4 + b / 16))
        (String (chr (b mod 16 * 16 + c / 4))
           (String (chr (c mod 4 * 64 + d)) (b64_decode rest)))
  | [a; b; c] =>
      String (chr (a * 4 + b / 16)) (String (chr (b mod 16 * 16 + c / 4)) "")
  | [a; b] => String (chr (a * 4 + b / 16)) ""
  | _ => ""
  end.

Definition InvalidCharacterError : thrown :=
  ThrownError "The string to be decoded is not correctly encoded." "InvalidCharacterError".

(** [atob s], the forgiving base64 decoder of the platform: ASCII
    whitespace is skipped, padding is optional, and any character outside
    [A-Za-z0-9+/] (so also the [-] and [_] of base64url) is refused. *)
Definition atob (s : string) : completion string :=
  let cs := List.filter (fun c => negb (is_ascii_space c)) (list_ascii_of_string s) in
  let cs := if Z.of_nat (length cs) mod 4 =? 0 then strip_padding cs else cs in
  if Z.of_nat (length cs) mod 4 =? 1 then Throw InvalidCharacterError
  else match b64_values cs with
       | Some vs => Normal (b64_decode vs)
       | None => Throw InvalidCharacterError
       end.

(** What the proofs need to know about one character of the alphabet. *)
Definition b64_char_ok (n : Z) : bool :=
  match b64_value (b64_char n) with
  | Some m => m =? n
  | None => false
  end
  && negb (is_ascii_space (b64_char n))
  && negb (Z.eqb (code (b64_char n)) 61)
  && negb (Ascii.eqb (b64_char n) ".")
  && Bool.eqb (Ascii.eqb (b64_char n) "+") (n =? 62)
  && Bool.eqb (Ascii.eqb (b64_char n) "/") (n =? 63).

(** [s.split(sep)] for a one-character separator. *)
Fixpoint split (sep : ascii) (s : string) : list string :=
  match s with
  | EmptyString => [""]
  | String c s' =>
      if Ascii.eqb c sep then "" :: split sep s'
      else match split sep s' with
           | h :: t => String c h :: t
           | [] => [String c ""]
           end
  end.

(** [s.replace(/[+/]/g, c => c === '+' ? '-' : '_').replace(/=/g, '')] *)
Fixpoint base64url (s : string) : string :=
  match s with
  | EmptyString => ""
  | String c s' =>
      if Ascii.eqb c "+" then String "-" (base64url s')
      else if Ascii.eqb c "/" then String "_" (base64url s')
      else if Ascii.eqb c "=" then base64url s'
      else String c (base64url s')
  end.

Definition byte_of_Z (n : Z) : byte := byte_of_ascii (chr n).
Definition Z_of_byte (b : byte) : Z := code (ascii_of_byte b).

(** [new TextEncoder().encode(s)]: UTF-8. *)
Fixpoint utf8_encode (s : string) : list byte :=
  match s with
  | EmptyString => []
  | String c s' =>
      let n := code c in
      if n <? 128 then byte_of_Z n :: utf8_encode s'
      else byte_of_Z (192 + n / 64) :: byte_of_Z (128 + n mod 64) :: utf8_encode s'
  end.

(** [String.fromCharCode(...bytes)] *)
Definition fromCharCodes (bs : list byte) : string :=
  string_of_list_ascii (map ascii_of_byte bs).

(** [b.toString(16).padStart(2, '0')] *)
Definition hex2 (b : byte) : string :=
  let n := Z_of_byte b in
  String (hex_digit (n / 16)) (String (hex_digit (n mod 16)) "").

(* ===================================================================== *)
(** ** Registration endpoint: helpers *)
(* ===================================================================== *)

(** [generateUUID()]. [rs] lists the successive values of
    [Math.random() * 16 | 0], each in 0..15. *)
Fixpoint uuid_replace (template : string) (rs : list Z) : string :=
  match template with
  | EmptyString => ""
  | String c t =>
      if Ascii.eqb c "x" || Ascii.eqb c "y" then
        let r := hd 0 rs in
        let v := if Ascii.eqb c "x" then r else Z.lor (Z.land r 3) 8 in
        String (hex_digit v) (uuid_replace t (tl rs))
      else String c (uuid_replace t rs)
  end.

Definition generateUUID (rs : list Z) : string :=
  uuid_replace "xxxxxxxx-xxxx-4xxx-yxxx-xxxxxxxxxxxx" rs.

(** HTTP response; [body] is the value handed to [JSON.stringify]. *)
Record Response : Type := mkResponse {
  status : Z;
  headers : list (string * string);
  body : value
}.

Definition json_response (st : Z) (b : value) : Response :=
  {| status := st; headers := [("Content-Type", "application/json")]; body := b |}.

(** [/^[^\s@]+@[^\s@]+\.[^\s@]+$/]: each step maps a suffix of the input
    to the suffixes that remain after one piece of the pattern. *)
Definition is_js_space (c : ascii) : bool :=
  let n := code c in
  ((9 <=? n) && (n <=? 13)) || (n =? 32) || (n =? 160).

Definition email_class (c : ascii) : bool :=
  negb (is_js_space c || Ascii.eqb c "@").

Fixpoint after_plus (s : string) : list string :=
  match s with
  | EmptyString => []
  | String c s' => if email_class c then s' :: after_plus s' else []
  end.

Definition after_lit (ch : ascii) (s : string) : list string :=
  match s with
  | EmptyString => []
  | String c s' => if Ascii.eqb c ch then [s'] else []
  end.

Definition emailRegex_test (s : string) : bool :=
  existsb (String.eqb "")
    (flat_map after_plus
       (flat_map (after_lit ".")
          (flat_map after_plus
             (flat_map (after_lit "@") (after_plus s))))).

(** A row of the [users] table. *)
Record user_row : Type := mkRow {
  row_id : string;
  row_first_name : value;
  row_email : string;
  row_password_hash : string;
  row_created_at : string;
  row_updated_at : string
}.

(** What [env] binds a name to: a text variable or secret, the D1
    database, a KV namespace. *)
Inductive binding : Type :=
| EnvVar (s : string)
| EnvD1
| EnvKV.

Fixpoint env_get (env : list (string * binding)) (k : string) : option binding :=
  match env with
  | [] => None
  | (k', b) :: env' => if String.eqb k k' then Some b else env_get env' k
  end.

(** [!!env.k] *)
Definition env_truthy (env : list (string * binding)) (k : string) : bool :=
  match env_get env k with
  | None => false
  | Some (EnvVar s) => negb (String.eqb s "")
  | Some _ => true
  end.

(** The text a binding yields where the code uses it as a string. *)
Definition env_text (env : list (string * binding)) (k : string) : string :=
  match env_get env k with
  | None => "undefined"
  | Some (EnvVar s) => s
  | Some _ => "[object Object]"
  end.

(** What the environment decides during one invocation of a handler.
    [now] is the clock when the handler resumes after the INSERT and
    builds the token payload. The payload literal reads [Date.now()]
    twice in one synchronous step; the Workers runtime that serves these
    handlers moves its clock at I/O only, so both reads give [now]. *)
Record invocation : Type := mkInvocation {
  request_json : completion value;   (* await request.json() *)
  random : list Z;                   (* Math.random() * 16 | 0, in order *)
  now : Z;                           (* Date.now(), see above *)
  db_now : string;                   (* datetime('now') *)
  select_fault : option thrown;      (* the SELECT, or the connection test, rejects *)
  insert_fault : option thrown       (* the INSERT rejects *)
}.

(** D1 binds [null], numbers, strings and booleans; anything else is a
    [D1_TYPE_ERROR]. *)
Definition d1_bindable (v : value) : bool :=
  match v with
  | VNull | VBool _ | VNum _ | VStr _ => true
  | VUndefined | VArr _ | VObj _ => false
  end.

Definition D1_TYPE_ERROR : thrown :=
  ThrownError "D1_TYPE_ERROR: Type not supported for value" "Error".

(** [SELECT id FROM users WHERE email = ?], [.first()]. *)
Definition findByEmail (db : list user_row) (email : string) : option user_row :=
  find (fun r => String.eqb (row_email r) email) db.


Definition error_body (code message : string) : value :=
  VObj [("success", VBool false);
        ("error", VObj [("code", VStr code); ("message", VStr message)])].

Section RegistrationEndpoint.

(** [crypto.subtle.digest('SHA-256', data)] and
    [crypto.subtle.sign('HMAC', key, data)] with a SHA-256 key. *)
Variable SHA256 : list byte -> list byte.
Variable HMAC_SHA256 : list byte -> list byte -> list byte.

(** Modelled from the spec: [SecurityHeadersManager.addSecurityHeaders]
    of [lib/security.js], which is not among the sources. The spec says
    that all responses carry a fixed set of security-related headers,
    opaque to the core: the function adds that set and leaves status and
    body alone. *)
Variable security_headers : list (string * string).

Definition addSecurityHeaders (r : Response) : Response :=
  {| status := status r;
     headers := headers r ++ security_headers;
     body := body r |}.

Definition hashPassword (password : string) : string :=
  let data := utf8_encode password in
  let hashArray := SHA256 data in
  String.concat "" (map hex2 hashArray).

Definition generateJWT (payload : value) (secret : string) : string :=
  let header := VObj [("alg", VStr "HS256"); ("typ", VStr "JWT")] in
  let headerB64 := base64url (btoa (to_string (JSON_stringify header))) in
  let payloadB64 := base64url (btoa (to_string (JSON_stringify payload))) in
  let message := headerB64 ++ "." ++ payloadB64 in
  let signature := HMAC_SHA256 (utf8_encode secret) (utf8_encode message) in
  let signatureB64 := base64url (btoa (fromCharCodes signature)) in
  message ++ "." ++ signatureB64.

Definition tokenPayload_of (userId : string) (data : value) (t : Z) : value :=
  VObj [("userId", VStr userId);
        ("email", prop data "email");
        ("firstName", prop data "firstName");
        ("iat", VNum (t / 1000));
        ("exp", VNum (t / 1000 + 24 * 60 * 60))].

Definition respond_error (st : Z) (code message : string) : Response :=
  addSecurityHeaders (json_response st (error_body code message)).

(** [await env.DB.prepare('SELECT id FROM users WHERE email = ?')
    .bind(email).first()]. Of the values D1 binds, only a string passes
    the email pattern (lemma [pattern_bindable_is_string]); the others
    that reach this point are arrays, which D1 refuses. *)
Definition select_user (env : list (string * binding)) (inv : invocation)
    (db : list user_row) (email : value) : completion (option user_row) :=
  match env_get env "DB" with
  | Some EnvD1 =>
      match email with
      | VStr e =>
          match select_fault inv with
          | Some err => Throw err
          | None => Normal (findByEmail db e)
          end
      | _ => Throw D1_TYPE_ERROR
      end
  | _ => Throw (TypeError "env.DB.prepare is not a function")
  end.

(** [await env.DB.prepare('INSERT INTO users ...')
    .bind(userId, firstName, email, hashedPassword).run()] *)
Definition insert_user (env : list (string * binding)) (inv : invocation)
    (db : list user_row) (userId : string) (firstName email : value)
    (hashedPassword : string) : completion (list user_row) :=
  match env_get env "DB" with
  | Some EnvD1 =>
      match email with
      | VStr e =>
          if negb (d1_bindable firstName) then Throw D1_TYPE_ERROR
          else match insert_fault inv with
               | Some err => Throw err
               | None =>
                   Normal (db ++ [mkRow userId firstName e hashedPassword
                                    (db_now inv) (db_now inv)])%list
               end
      | _ => Throw D1_TYPE_ERROR
      end
  | _ => Throw (TypeError "env.DB.prepare is not a function")
  end.

Definition created_body (userId : string) (data : value) (token : string) : value :=
  VObj [("success", VBool true);
        ("user", VObj [("id", VStr userId);
                       ("firstName", prop data "firstName");
                       ("email", prop data "email")]);
        ("token", VStr token)].

(** The body of the [try] of the registration handler: the table after
    it, and the response it returns or the value it throws. *)
Definition register_try (env : list (string * binding)) (inv : invocation)
    (db : list user_row) : list user_row * completion Response :=
  if negb (env_truthy env "JWT_SECRET") then
    (db, Normal (respond_error 503 "CONFIG_ERROR" "JWT configuration missing"))
  else if negb (env_truthy env "DB") then
    (db, Normal (respond_error 503 "CONFIG_ERROR" "Database configuration missing"))
  else
    match request_json inv with
    | Throw e => (db, Throw e)
    | Normal data =>
        if nullish data then
          (db, Throw (TypeError "Cannot read properties of null (reading 'firstName')"))
        else if negb (truthy (prop data "firstName"))
                || negb (truthy (prop data "email"))
                || negb (truthy (prop data "password")) then
          (db, Normal (respond_error 400 "VALIDATION_ERROR"
                         "Missing required fields: firstName, email, password"))
        else if negb (emailRegex_test (to_string (prop data "email"))) then
          (db, Normal (respond_error 400 "VALIDATION_ERROR" "Invalid email format"))
        else
          match select_user env inv db (prop data "email") with
          | Throw e => (db, Throw e)
          | Normal (Some existingUser) =>
              (db, Normal (respond_error 409 "USER_EXISTS"
                             "User with this email already exists"))
          | Normal None =>
              let userId := generateUUID (random inv) in
              let hashedPassword := hashPassword (to_string (prop data "password")) in
              match insert_user env inv db userId (prop data "firstName")
                      (prop data "email") hashedPassword with
              | Throw e => (db, Throw e)
              | Normal db' =>
                  let tokenPayload := tokenPayload_of userId data (now inv) in
                  let token := generateJWT tokenPayload (env_text env "JWT_SECRET") in
                  (db', Normal (addSecurityHeaders
                                  (json_response 201 (created_body userId data token))))
              end
          end
    end.

(** [onRequestPost] of the registration endpoint: the [try] above and
    its [catch]. *)
Definition onRequestPost (env : list (string * binding)) (inv : invocation)
    (db : list user_row) : list user_row * Response :=
  match register_try env inv db with
  | (db', Normal r) => (db', r)
  | (db', Throw error) =>
      (db', respond_error 500 "INTERNAL_ERROR" "Registration failed")
  end.

End RegistrationEndpoint.

(** *** Vocabulary of the properties *)




(** The error responses of the registration endpoint: status, code and
    message. *)
Definition error_taxonomy : list (Z * value) :=
  [(503, error_body "CONFIG_ERROR" "JWT configuration missing");
   (503, error_body "CONFIG_ERROR" "Database configuration missing");
   (400, error_body "VALIDATION_ERROR" "Missing required fields: firstName, email, password");
   (400, error_body "VALIDATION_ERROR" "Invalid email format");
   (409, error_body "USER_EXISTS" "User with this email already exists");
   (500, error_body "INTERNAL_ERROR" "Registration failed")].

(* ===================================================================== *)
(** ** The minimal registration endpoint kept for debugging *)
(* ===================================================================== *)

(** [Object.keys(env)] *)
Definition env_keys (env : list (string * binding)) : list string := map fst env.

(** [typeof env.k] *)
Definition env_typeof (env : list (string * binding)) (k : string) : string :=
  match env_get env k with
  | None => "undefined"
  | Some (EnvVar _) => "string"
  | Some _ => "object"
  end.

(** The connection test [await env.DB.prepare('SELECT 1 as test').first()]. *)
Definition test_query (env : list (string * binding)) (inv : invocation)
  : completion unit :=
  match env_get env "DB" with
  | Some EnvD1 =>
      match select_fault inv with
      | Some err => Throw err
      | None => Normal tt
      end
  | _ => Throw (TypeError "env.DB.prepare is not a function")
  end.

Definition simple_try (env : list (string * binding)) (inv : invocation)
  : completion Response :=
  if negb (env_truthy env "JWT_SECRET") then
    Normal (json_response 500
      (VObj [("success", VBool false);
             ("error",
              VObj [("message", VStr "Missing JWT_SECRET");
                    ("availableKeys", VArr (map VStr (env_keys env)));
                    ("debug",
                     VObj [("hasJWTSecret", VBool (env_truthy env "JWT_SECRET"));
                           ("jwtSecretType", VStr (env_typeof env "JWT_SECRET"))])])]))
  else if negb (env_truthy env "DB") then
    Normal (json_response 500
      (VObj [("success", VBool false);
             ("error", VObj [("message", VStr "Missing DB")])]))
  else
    match test_query env inv with
    | Throw dbError =>
        Normal (json_response 500
          (VObj [("success", VBool false);
                 ("error", VObj [("message", VStr "DB connection failed");
                                 ("details", VStr (error_message dbError))])]))
    | Normal _ =>
        match request_json inv with
        | Throw e => Throw e
        | Normal data =>
            if nullish data then
              Throw (TypeError "Cannot read properties of null (reading 'firstName')")
            else if negb (truthy (prop data "firstName"))
                    || negb (truthy (prop data "email"))
                    || negb (truthy (prop data "password")) then
              Normal (json_response 400
                (VObj [("success", VBool false);
                       ("error", VObj [("message", VStr "Missing required fields")])]))
            else
              Normal (json_response 200
                (VObj [("success", VBool true);
                       ("message", VStr "Registration endpoint is working!");
                       ("data",
                        VObj [("firstName", prop data "firstName");
                              ("email", prop data "email");
                              ("environmentCheck",
                               VObj [("hasJWT", VBool (env_truthy env "JWT_SECRET"));
                                     ("hasDB", VBool (env_truthy env "DB"));
                                     ("hasPromptCache",
                                      VBool (env_truthy env "PROMPT_CACHE"))])])]))
        end
    end.

(** [onRequestPost] of the debugging endpoint. What is caught is an
    [Error] instance in every case (see [thrown]), so the [instanceof]
    tests of the [catch] hold and its fallback texts are not reached. *)
Definition simple_onRequestPost (env : list (string * binding)) (inv : invocation)
  : Response :=
  match simple_try env inv with
  | Normal r => r
  | Throw error =>
      let errorMessage := error_message error in
      json_response 500
        (VObj [("success", VBool false);
               ("error", VObj [("message", VStr "Simple registration failed");
                               ("details", VStr errorMessage);
                               ("stack", VStr (error_stack error))])])
  end.

(* ===================================================================== *)
(** ** Client: the state of [AuthProvider] and its surroundings *)
(* ===================================================================== *)

Record MigrationStatus : Type := mkMigrationStatus {
  isNeeded : bool;
  isRunning : bool;
  progress : value;
  completed : bool;
  error : value
}.

Record http_request : Type := mkRequest {
  url : string;
  method : string;
  req_headers : list (string * string);
  req_body : value
}.

(** What [fetch] resolves to: [response.ok], [response.status] and the
    completion of [await response.json()]. *)
Record http_response : Type := mkHttpResponse {
  ok : bool;
  resp_status : Z;
  json : completion value
}.

(** Everything the client code reads or writes: [localStorage], the React
    state of [AuthProvider], the requests sent with [fetch], the callbacks
    scheduled with [setTimeout], and the progress listeners registered
    with the migration service. *)
Record World : Type := mkWorld {
  localStorage : gmap string string;
  user : value;
  token : value;
  isLoading : bool;
  isAuthenticated : bool;
  migrationStatus : MigrationStatus;
  sent : list http_request;
  timers : nat;
  listeners : list nat
}.

Definition AUTH_KEY : string := "auth".

Definition initial_world (ls : gmap string string) : World :=
  {| localStorage := ls;
     user := VNull;
     token := VNull;
     isLoading := true;
     isAuthenticated := false;
     migrationStatus := mkMigrationStatus false false VNull false VNull;
     sent := [];
     timers := 0%nat;
     listeners := [] |}.

Definition with_storage (f : gmap string string -> gmap string string) (w : World) : World :=
  mkWorld (f (localStorage w)) (user w) (token w) (isLoading w) (isAuthenticated w)
    (migrationStatus w) (sent w) (timers w) (listeners w).

Definition removeItem (k : string) : World -> World := with_storage (delete k).
Definition setItem (k v : string) : World -> World := with_storage (insert k v).
Definition getItem (k : string) (w : World) : option string := localStorage w !! k.

Definition setUser (v : value) (w : World) : World :=
  mkWorld (localStorage w) v (token w) (isLoading w) (isAuthenticated w)
    (migrationStatus w) (sent w) (timers w) (listeners w).

Definition setToken (v : value) (w : World) : World :=
  mkWorld (localStorage w) (user w) v (isLoading w) (isAuthenticated w)
    (migrationStatus w) (sent w) (timers w) (listeners w).

Definition setIsLoading (b : bool) (w : World) : World :=
  mkWorld (localStorage w) (user w) (token w) b (isAuthenticated w)
    (migrationStatus w) (sent w) (timers w) (listeners w).

Definition setIsAuthenticated (b : bool) (w : World) : World :=
  mkWorld (localStorage w) (user w) (token w) (isLoading w) b
    (migrationStatus w) (sent w) (timers w) (listeners w).

(** [setMigrationStatus(prev => f prev)] *)
Definition setMigrationStatus (f : MigrationStatus -> MigrationStatus) (w : World) : World :=
  mkWorld (localStorage w) (user w) (token w) (isLoading w) (isAuthenticated w)
    (f (migrationStatus w)) (sent w) (timers w) (listeners w).

(** [fetch(...)]: the request leaves. *)
Definition send (r : http_request) (w : World) : World :=
  mkWorld (localStorage w) (user w) (token w) (isLoading w) (isAuthenticated w)
    (migrationStatus w) (sent w ++ [r]) (timers w) (listeners w).

(** [setTimeout(() => checkMigrationNeeded(), 100)] *)
Definition setTimeout_check (w : World) : World :=
  mkWorld (localStorage w) (user w) (token w) (isLoading w) (isAuthenticated w)
    (migrationStatus w) (sent w) (S (timers w)) (listeners w).

Definition with_listeners (f : list nat -> list nat) (w : World) : World :=
  mkWorld (localStorage w) (user w) (token w) (isLoading w) (isAuthenticated w)
    (migrationStatus w) (sent w) (timers w) (f (listeners w)).

Definition json_headers : list (string * string) :=
  [("Content-Type", "application/json")].

(** [`Bearer ${token}`] *)
Definition bearer (tok : value) : string := "Bearer " ++ to_string tok.

Definition bearer_headers (tok : value) : list (string * string) :=
  [("Authorization", bearer tok); ("Content-Type", "application/json")].

(** IEEE numbers as far as the code needs them: an integer or [NaN]. *)
Definition number : Type := option Z.

(** [a < b] *)
Definition num_lt (a b : number) : bool :=
  match a, b with
  | Some x, Some y => x <? y
  | _, _ => false
  end.

Definition num_mul (a b : number) : number :=
  match a, b with
  | Some x, Some y => Some (x * y)
  | _, _ => None
  end.

(** Numbered properties of a spread array or string. *)
Fixpoint indexed (i : Z) (l : list value) : list (string * value) :=
  match l with
  | [] => []
  | v :: l' => (Z_to_string i, v) :: indexed (i + 1) l'
  end.

(** [{...v}] *)
Definition spread (v : value) : list (string * value) :=
  match v with
  | VObj ps => ps
  | VArr items => indexed 0 items
  | VStr s => indexed 0 (map (fun c => VStr (String c "")) (list_ascii_of_string s))
  | _ => []
  end.

(** [s.split('.')] as a method call on any value. *)
Definition js_split (v : value) : completion (list string) :=
  match v with
  | VStr s => Normal (split "." s)
  | _ => Throw (TypeError "storedToken.split is not a function")
  end.

(** [segments[i]] passed to a function that takes a string. *)
Definition segment (i : nat) (segs : list string) : string :=
  match nth_error segs i with
  | Some s => s
  | None => "undefined"
  end.

(** Modelled from the spec: the result of [migratePrompts()] of
    [services/migrationService.js], which is not among the sources; the
    spec gives its shape as total, migrated, failed. *)
Record migration_result : Type := mkMigrationResult {
  total : Z;
  migrated : Z;
  failed : Z
}.

(** Modelled from the spec: progress-listener registration of the
    migration service, returning an unregister handle. A listener is known
    by a number; registering picks one not in use, the handle removes it. *)
Definition fresh_listener (l : list nat) : nat := S (list_max l).

Definition addProgressListener (w : World) : nat * World :=
  let id := fresh_listener (listeners w) in
  (id, with_listeners (cons id) w).

Definition removeListener (id : nat) : World -> World :=
  with_listeners (List.filter (fun x => negb (Nat.eqb x id))).

Section Client.

(** [JSON.parse]: the parsed value, or the [SyntaxError] it throws. *)
Variable JSON_parse : string -> completion value.

(** [Number(s)] for a string [s]; [None] is [NaN]. *)
Variable StringToNumber : string -> number.

(** [Number(v)] *)
Definition to_number (v : value) : number :=
  match v with
  | VUndefined => None
  | VNull => Some 0
  | VBool b => Some (if b then 1 else 0)
  | VNum n => Some n
  | VStr s => StringToNumber s
  | VArr _ => StringToNumber (to_string v)
  | VObj _ => None
  end.

(* ------------------------------------------------------------------- *)
(** *** [ApiService] *)

Definition getToken (ls : gmap string string) : value :=
  match ls !! "auth" with
  | None => VNull
  | Some raw =>
      if String.eqb raw "" then VNull
      else match JSON_parse raw with
           | Throw _ => VNull
           | Normal parsed =>
               if negb (truthy parsed) || negb (String.eqb (typeof parsed) "object")
               then VNull
               else js_or (prop parsed "token") VNull
           end
  end.

(* ------------------------------------------------------------------- *)
(** *** Session restore *)

(** [JSON.parse(atob(storedToken.split('.')[1]))] *)
Definition decode_token (storedToken : value) : completion value :=
  do segs <- js_split storedToken;
  do decoded <- atob (segment 1 segs);
  JSON_parse decoded.

(** [tokenPayload.exp * 1000 < Date.now()] *)
Definition isExpired (exp : value) (t : Z) : bool :=
  num_lt (num_mul (to_number exp) (Some 1000)) (Some t).

(** The inner [try] of [initializeAuth] and its [catch]. *)
Definition check_token (t : Z) (storedToken storedUser : value) (w : World) : World :=
  match (do tokenPayload <- decode_token storedToken;
         do exp <- get tokenPayload "exp";
         Normal (isExpired exp t)) with
  | Normal expired =>
      if negb expired then
        setIsAuthenticated true (setUser storedUser (setToken storedToken w))
      else removeItem AUTH_KEY w
  | Throw tokenError => removeItem AUTH_KEY w
  end.

(** [initializeAuth()], run once when the provider mounts; [t] is
    [Date.now()]. The [finally] clears [isLoading] on every path. *)
Definition initializeAuth (t : Z) (w : World) : World :=
  let w' :=
    match getItem AUTH_KEY w with
    | None => removeItem AUTH_KEY w
    | Some raw =>
        if String.eqb raw "" || String.eqb raw "undefined" || String.eqb raw "null" then
          removeItem AUTH_KEY w
        else
          match JSON_parse raw with
          | Throw error => removeItem AUTH_KEY w
          | Normal parsed =>
              if negb (truthy parsed) || negb (String.eqb (typeof parsed) "object") then
                removeItem AUTH_KEY w
              else
                let storedUser := prop parsed "user" in
                let storedToken := prop parsed "token" in
                if truthy storedToken && truthy storedUser then
                  check_token t storedToken storedUser w
                else w
          end
    end in
  setIsLoading false w'.

(* ------------------------------------------------------------------- *)
(** *** [login] and [register] *)

(** The two functions differ in the endpoint, the request body, the
    fallback message and the debug logging of [register], which reads
    [data.error] before the status is looked at. [net] is what [fetch]
    resolves or rejects with, [quota] the error of
    [localStorage.setItem] if it raises one. *)
Definition sign_in_try (endpoint : string) (request_body : value) (fallback : string)
    (logs_error : bool) (net : completion http_response) (quota : option thrown)
    (w : World) : World * completion value :=
  let w1 := send (mkRequest endpoint "POST" json_headers (JSON_stringify request_body)) w in
  match (do response <- net;
         do data <- json response;
         do logged <- (if logs_error then get data "error" else Normal VUndefined);
         if negb (ok response) then
           do err <- get data "error";
           let errorMessage :=
             js_or (js_or (get_opt err "message") err) (VStr fallback) in
           Throw (ThrownError (to_string errorMessage) "Error")
         else
           do tok <- get data "token";
           do usr <- get data "user";
           match quota with
           | Some e => Throw e
           | None => Normal (tok, usr)
           end) with
  | Throw e => (w1, Throw e)
  | Normal (tok, usr) =>
      let w2 := setItem AUTH_KEY (stringify (VObj [("token", tok); ("user", usr)])) w1 in
      let w3 := setIsAuthenticated true (setUser usr (setToken tok w2)) in
      let w4 := setTimeout_check w3 in
      (w4, Normal (VObj [("success", VBool true); ("user", usr)]))
  end.

Definition sign_in (endpoint : string) (request_body : value) (fallback : string)
    (logs_error : bool) (net : completion http_response) (quota : option thrown)
    (w : World) : World * value :=
  match sign_in_try endpoint request_body fallback logs_error net quota w with
  | (w', Normal r) => (w', r)
  | (w', Throw error) =>
      (w', VObj [("success", VBool false); ("error", VStr (error_message error))])
  end.

Definition login (email password : value)
  : completion http_response -> option thrown -> World -> World * value :=
  sign_in "/api/auth/login"
    (VObj [("email", email); ("password", password)]) "Login failed" false.

Definition register (firstName email password : value)
  : completion http_response -> option thrown -> World -> World * value :=
  sign_in "/api/auth/register"
    (VObj [("firstName", firstName); ("email", email); ("password", password)])
    "Registration failed" true.

(* ------------------------------------------------------------------- *)
(** *** [logout] and [refreshToken] *)

(** [logout()] as closed over the [token] of one render. Whether the
    request resolves or rejects, control reaches the [finally]. *)
Definition logout_with (tok : value) (w : World) : World :=
  let w1 :=
    if truthy tok then send (mkRequest "/api/auth/logout" "POST" (bearer_headers tok) VUndefined) w
    else w in
  setIsAuthenticated false (setUser VNull (setToken VNull (removeItem AUTH_KEY w1))).

Definition logout (w : World) : World := logout_with (token w) w.

(** [localStorage.getItem(AUTH_KEY) || '{}'] *)
Definition stored_or_empty (w : World) : string :=
  match getItem AUTH_KEY w with
  | Some raw => if String.eqb raw "" then "{}" else raw
  | None => "{}"
  end.

Definition refresh_try (tok : value) (net : completion http_response)
    (quota : option thrown) (w : World) : World * completion unit :=
  let w1 := send (mkRequest "/api/auth/refresh" "POST" (bearer_headers tok) VUndefined) w in
  match (do response <- net;
         if negb (ok response) then Throw (ThrownError "Token refresh failed" "Error")
         else
           do data <- json response;
           do currentAuth <- JSON_parse (stored_or_empty w1);
           do newToken <- get data "token";
           match quota with
           | Some e => Throw e
           | None => Normal (currentAuth, newToken)
           end) with
  | Throw e => (w1, Throw e)
  | Normal (currentAuth, newToken) =>
      let w2 :=
        setItem AUTH_KEY
          (stringify (VObj (set_prop "token" newToken (spread currentAuth)))) w1 in
      (setToken newToken w2, Normal tt)
  end.

Definition refreshToken (net : completion http_response) (quota : option thrown)
    (w : World) : World * bool :=
  let tok := token w in
  if negb (truthy tok) then (w, false)
  else
    match refresh_try tok net quota w with
    | (w', Normal _) => (w', true)
    | (w', Throw error) => (logout_with tok w', false)
    end.

Definition getAuthHeaders (w : World) : list (string * string) :=
  if truthy (token w) then [("Authorization", bearer (token w))] else [].

(* ------------------------------------------------------------------- *)
(** *** Migration *)

(** [needed] is what [migrationService.isMigrationNeeded()] answers. *)
Definition checkMigrationNeeded (needed : bool) (w : World) : World * bool :=
  (setMigrationStatus
     (fun prev => mkMigrationStatus needed (isRunning prev) (progress prev)
                    (completed prev) (error prev)) w,
   needed).

Definition progress_object (st : string) (t c f : Z) : value :=
  VObj [("status", VStr st); ("total", VNum t); ("completed", VNum c);
        ("failed", VNum f)].

(** The progress listener of [runMigration]. *)
Definition on_progress (w : World) (p : value) : World :=
  setMigrationStatus
    (fun prev => mkMigrationStatus (isNeeded prev) (isRunning prev) p
                   (completed prev) (error prev)) w.

(** The [catch] of [runMigration], before it re-throws. *)
Definition migration_failed (e : thrown) (w : World) : World :=
  setMigrationStatus
    (fun prev => mkMigrationStatus (isNeeded prev) false
                   (VObj (set_prop "status" (VStr "failed") (spread (progress prev))))
                   (completed prev) (VStr (error_message e))) w.

(** [runMigration()]. [events] are the progress reports the service
    emits while [migratePrompts()] runs, [outcome] what it resolves or
    rejects with. *)
Definition runMigration (events : list value) (outcome : completion migration_result)
    (w : World) : World * completion migration_result :=
  if isRunning (migrationStatus w) then
    (w, Throw (ThrownError "Migration is already running" "Error"))
  else
    let w1 :=
      setMigrationStatus
        (fun prev => mkMigrationStatus (isNeeded prev) true
                       (progress_object "starting" 0 0 0) (completed prev) VNull) w in
    let (id, w2) := addProgressListener w1 in
    let w3 := fold_left on_progress events w2 in
    match outcome with
    | Normal result =>
        let w4 := removeListener id w3 in
        let w5 :=
          setMigrationStatus
            (fun prev => mkMigrationStatus false false
               (progress_object
                  (if failed result >? 0 then "completed_with_errors" else "completed")
                  (total result) (migrated result) (failed result))
               true (error prev)) w4 in
        (w5, Normal result)
    | Throw e => (migration_failed e w3, Throw e)
    end.

Definition skipMigration (w : World) : World :=
  setMigrationStatus
    (fun prev => mkMigrationStatus false (isRunning prev) (progress prev) false
                   (error prev)) w.

Definition retryMigration := runMigration.

(* ------------------------------------------------------------------- *)
(** *** Vocabulary of the properties *)

(** The slot holds text that parses to the object [parsed]. *)
Definition persisted (w : World) (parsed : value) : Prop :=
  exists raw,
    getItem AUTH_KEY w = Some raw /\
    String.eqb raw "" || String.eqb raw "undefined" || String.eqb raw "null" = false /\
    JSON_parse raw = Normal parsed /\
    truthy parsed = true /\ String.eqb (typeof parsed) "object" = true.

(** The slot holds a record with a token and a user, and the token's
    payload decodes to an object whose [exp] is the number [e]. *)
Definition persisted_session (w : World) (tok usr : value) (e : Z) : Prop :=
  exists parsed payload,
    persisted w parsed /\
    prop parsed "token" = tok /\ prop parsed "user" = usr /\
    truthy tok = true /\ truthy usr = true /\
    decode_token tok = Normal payload /\
    get payload "exp" = Normal (VNum e).

End Client.

(** The Anonymous state of the session manager. *)
Definition anonymous (w : World) : Prop :=
  token w = VNull /\ user w = VNull /\ isAuthenticated w = false.

(** The session part of the world: the persisted slot and the
    authentication state. *)
Definition same_session (w w' : World) : Prop :=
  localStorage w' = localStorage w /\ token w' = token w /\
  user w' = user w /\ isAuthenticated w' = isAuthenticated w.

(* ===================================================================== *)
(** ** A reference [JSON.parse] and [Number] for the examples

    The client code above is parametric in the platform's [JSON.parse]
    and string-to-number conversion. The instances below accept JSON
    whose numbers are integers (a fraction or an exponent is refused, the
    value model has no place for it) and decimal integer numerals; the
    concrete runs in this file use them. *)
(* ===================================================================== *)

Definition SyntaxError : thrown := ThrownError "Unexpected token in JSON" "SyntaxError".

Definition is_json_ws (c : ascii) : bool :=
  let n := code c in (n =? 32) || (n =? 9) || (n =? 10) || (n =? 13).

Fixpoint skip_ws (s : list ascii) : list ascii :=
  match s with
  | c :: r => if is_json_ws c then skip_ws r else s
  | [] => []
  end.

Definition is_digit (c : ascii) : bool := (48 <=? code c) && (code c <=? 57).

Fixpoint take_digits (s : list ascii) (acc : Z) : Z * list ascii :=
  match s with
  | c :: r => if is_digit c then take_digits r (acc * 10 + (code c - 48)) else (acc, s)
  | [] => (acc, [])
  end.

Definition starts_fraction (s : list ascii) : bool :=
  match s with
  | c :: _ => (code c =? 46) || (code c =? 101) || (code c =? 69)
  | [] => false
  end.

(** An optional minus sign, then 0 or a numeral without leading zero. *)
Definition parse_int (s : list ascii) : option (Z * list ascii) :=
  let (neg, s1) :=
    match s with
    | c :: r => if code c =? 45 then (true, r) else (false, s)
    | [] => (false, s)
    end in
  match s1 with
  | c :: r =>
      if code c =? 48 then
        match r with
        | d :: _ => if is_digit d || starts_fraction r then None else Some (0, r)
        | [] => Some (0, r)
        end
      else if is_digit c then
        let (n, r') := take_digits s1 0 in
        if starts_fraction r' then None else Some (if neg then - n else n, r')
      else None
  | [] => None
  end.

Definition hex_value (c : ascii) : option Z :=
  let n := code c in
  if (48 <=? n) && (n <=? 57) then Some (n - 48)
  else if (97 <=? n) && (n <=? 102) then Some (n - 87)
  else if (65 <=? n) && (n <=? 70) then Some (n - 55)
  else None.

(** The characters of a string literal after its opening quote. *)
Fixpoint parse_chars (s : list ascii) (acc : list ascii) : option (string * list ascii) :=
  match s with
  | [] => None
  | c :: r =>
      if code c =? 34 then Some (string_of_list_ascii (rev acc), r)
      else if code c =? 92 then
        match r with
        | e :: r' =>
            let n := code e in
            if n =? 34 then parse_chars r' (e :: acc)
            else if n =? 92 then parse_chars r' (e :: acc)
            else if n =? 47 then parse_chars r' (e :: acc)
            else if n =? 98 then parse_chars r' (chr 8 :: acc)
            else if n =? 102 then parse_chars r' (chr 12 :: acc)
            else if n =? 110 then parse_chars r' (chr 10 :: acc)
            else if n =? 114 then parse_chars r' (chr 13 :: acc)
            else if n =? 116 then parse_chars r' (chr 9 :: acc)
            else if n =? 117 then
              match r' with
              | h1 :: h2 :: h3 :: h4 :: r'' =>
                  match hex_value h1, hex_value h2, hex_value h3, hex_value h4 with
                  | Some 0, Some 0, Some a, Some b => parse_chars r'' (chr (a * 16 + b) :: acc)
                  | _, _, _, _ => None
                  end
              | _ => None
              end
            else None
        | [] => None
        end
      else if code c <? 32 then None
      else parse_chars r (c :: acc)
  end.

Fixpoint strip_prefix (p s : list ascii) : option (list ascii) :=
  match p, s with
  | [], _ => Some s
  | a :: p', b :: s' => if Ascii.eqb a b then strip_prefix p' s' else None
  | _ :: _, [] => None
  end.

Fixpoint parse_value (fuel : nat) (s : list ascii) : option (value * list ascii) :=
  match fuel with
  | O => None
  | S f =>
      match skip_ws s with
      | [] => None
      | c :: r =>
          if code c =? 123 then
            match skip_ws r with
            | c2 :: r2 => if code c2 =? 125 then Some (VObj [], r2) else parse_members f r []
            | [] => None
            end
          else if code c =? 91 then
            match skip_ws r with
            | c2 :: r2 => if code c2 =? 93 then Some (VArr [], r2) else parse_elements f r []
            | [] => None
            end
          else if code c =? 34 then
            match parse_chars r [] with
            | Some (str, r') => Some (VStr str, r')
            | None => None
            end
          else
            match strip_prefix (list_ascii_of_string "true") (c :: r),
                  strip_prefix (list_ascii_of_string "false") (c :: r),
                  strip_prefix (list_ascii_of_string "null") (c :: r) with
            | Some r', _, _ => Some (VBool true, r')
            | _, Some r', _ => Some (VBool false, r')
            | _, _, Some r' => Some (VNull, r')
            | None, None, None =>
                match parse_int (c :: r) with
                | Some (n, r') => Some (VNum n, r')
                | None => None
                end
            end
      end
  end
with parse_elements (fuel : nat) (s : list ascii) (acc : list value)
  : option (value * list ascii) :=
  match fuel with
  | O => None
  | S f =>
      match parse_value f s with
      | Some (v, r) =>
          match skip_ws r with
          | c :: r' =>
              if code c =? 44 then parse_elements f r' (v :: acc)
              else if code c =? 93 then Some (VArr (rev (v :: acc)), r')
              else None
          | [] => None
          end
      | None => None
      end
  end
with parse_members (fuel : nat) (s : list ascii) (acc : list (string * value))
  : option (value * list ascii) :=
  match fuel with
  | O => None
  | S f =>
      match skip_ws s with
      | c :: r =>
          if code c =? 34 then
            match parse_chars r [] with
            | Some (k, r1) =>
                match skip_ws r1 with
                | c1 :: r2 =>
                    if code c1 =? 58 then
                      match parse_value f r2 with
                      | Some (v, r3) =>
                          match skip_ws r3 with
                          | c3 :: r4 =>
                              if code c3 =? 44 then parse_members f r4 (set_prop k v acc)
                              else if code c3 =? 125 then Some (VObj (set_prop k v acc), r4)
                              else None
                          | [] => None
                          end
                      | None => None
                      end
                    else None
                | [] => None
                end
            | None => None
            end
          else None
      | [] => None
      end
  end.

Definition json_parse (s : string) : completion value :=
  let cs := list_ascii_of_string s in
  match parse_value (2 * length cs + 2) cs with
  | Some (v, r) =>
      match skip_ws r with
      | [] => Normal v
      | _ :: _ => Throw SyntaxError
      end
  | None => Throw SyntaxError
  end.

(** Decimal integer numerals, surrounded by optional blanks; the empty
    string is 0. *)
Definition string_to_number (s : string) : number :=
  let cs := skip_ws (rev (skip_ws (rev (list_ascii_of_string s)))) in
  match cs with
  | [] => Some 0
  | c :: r =>
      let (neg, ds) :=
        if code c =? 45 then (true, r) else if code c =? 43 then (false, r) else (false, cs) in
      match ds with
      | [] => None
      | _ :: _ =>
          match take_digits ds 0 with
          | (n, []) => Some (if neg then - n else n)
          | (_, _ :: _) => None
          end
      end
  end.

(* ===================================================================== *)
(** ** Concrete data for the examples *)
(* ===================================================================== *)

Definition alice : value :=
  VObj [("id", VStr "u-1"); ("firstName", VStr "Alice"); ("email", VStr "alice@example.com")].

(** A token as the client sees it: three dot-separated segments, the
    middle one the base64 of the payload. The client never looks at the
    other two. *)
Definition token_with_payload (payload : value) : string :=
  "eyJhbGciOiJIUzI1NiIsInR5cCI6IkpXVCJ9." ++ base64url (btoa (stringify payload)) ++ ".c2ln".

(** The session record as [login] and [register] write it. *)
Definition session_record (tok usr : value) : string :=
  stringify (VObj [("token", tok); ("user", usr)]).

Definition token_expiring (exp : Z) : value :=
  VStr (token_with_payload
          (VObj [("userId", VStr "u-1"); ("email", VStr "alice@example.com");
                 ("firstName", VStr "Alice"); ("iat", VNum (exp - 86400));
                 ("exp", VNum exp)])).

Definition stored (raw : string) : World := initial_world {[ AUTH_KEY := raw ]}.

(** Stand-ins for the digest and the MAC in the concrete runs. The
    properties are proved for every pair of functions; a run needs some
    pair, and no statement below depends on which. *)
Definition example_sha256 (data : list byte) : list byte := rev data.
Definition example_hmac (key data : list byte) : list byte := rev key.

Definition production_env : list (string * binding) :=
  [("JWT_SECRET", EnvVar "s3cr3t"); ("DB", EnvD1); ("PROMPT_CACHE", EnvKV)].

Definition registration_body (firstName email password : string) : value :=
  VObj [("firstName", VStr firstName); ("email", VStr email); ("password", VStr password)].

(** An invocation without faults, at 2023-11-14 22:13:20 UTC. *)
Definition call (data : completion value) : invocation :=
  {| request_json := data;
     random := [1; 2; 3; 4; 5; 6; 7; 8; 9; 10; 11; 12; 13; 14; 15; 0; 1; 2; 3; 4; 5; 6; 7;
                8; 9; 10; 11; 12; 13; 14; 15];
     now := 1700000000000;
     db_now := "2023-11-14 22:13:20";
     select_fault := None;
     insert_fault := None |}.

Definition alice_request : invocation :=
  call (Normal (registration_body "Alice" "alice@example.com" "pw123")).

(** A registration whose email has a tilde as second character. *)
Definition tilde_request : invocation :=
  call (Normal (registration_body "Al" "a~b@example.com" "pw123")).

(** The response of the server as [fetch] hands it to the client. *)
Definition delivered (r : Response) : http_response :=
  {| ok := (200 <=? status r) && (status r <=? 299);
     resp_status := status r;
     json := json_parse (stringify (body r)) |}.

(** A page reload: the React state starts afresh, [localStorage] stays. *)
Definition reload (w : World) : World := initial_world (localStorage w).

(** A request whose body is not JSON, with the error the runtime raises. *)
Definition garbled_request : invocation :=
  call (Throw (ThrownError "Unexpected token < in JSON at position 0"
                 "SyntaxError: Unexpected token < in JSON at position 0 at onRequestPost (functions/api/auth/simple-register.js:49:32)")).

Definition misconfigured_env : list (string * binding) :=
  [("DB", EnvD1); ("STRIPE_API_KEY", EnvVar "sk_live_1")].

(** A signed-in client: the session record is persisted and loaded. *)
Definition signed_in : World :=
  {| localStorage := {[ AUTH_KEY := session_record (token_expiring 1700000000) alice ]};
     user := alice;
     token := token_expiring 1700000000;
     isLoading := false;
     isAuthenticated := true;
     migrationStatus := mkMigrationStatus false false VNull false VNull;
     sent := [];
     timers := 0%nat;
     listeners := [] |}.

Definition unauthorized : http_response :=
  {| ok := false;
     resp_status := 401;
     json := Normal (VObj [("success", VBool false);
                           ("error", VObj [("code", VStr "UNAUTHORIZED");
                                           ("message", VStr "Invalid credentials")])]) |}.

Definition network_down : thrown := ThrownError "Failed to fetch" "TypeError".

(** A client that holds a token in memory while the slot is empty, as
    after the storage was cleared from another tab. *)
Definition signed_in_no_slot : World :=
  {| localStorage := ∅;
     user := alice;
     token := token_expiring 1700000000;
     isLoading := false;
     isAuthenticated := true;
     migrationStatus := mkMigrationStatus false false VNull false VNull;
     sent := [];
     timers := 0%nat;
     listeners := [] |}.

Definition refreshed : http_response :=
  {| ok := true;
     resp_status := 200;
     json := Normal (VObj [("success", VBool true);
                           ("token", token_expiring 1700086400)]) |}.

(* ===================================================================== *)
(** ** Properties: the registration endpoint *)
(* ===================================================================== *)

Lemma truthy_string_nonempty (s : string) : truthy (VStr s) = true -> s <> "".
Proof. simpl. intros H ->. discriminate. Qed.


(** Every character of an element of [after_plus s] is a character of
    [s]. *)
Lemma after_plus_chars (s r : string) (c : ascii) :
  In r (after_plus s) -> In c (list_ascii_of_string r) -> In c (list_ascii_of_string s).
Proof.
  revert r. induction s as [|a s IH]; simpl; intros r Hr Hc; [contradiction|].
  destruct (email_class a); [|contradiction].
  destruct Hr as [<-|Hr]; [right; exact Hc|].
  right. exact (IH r Hr Hc).
Qed.

(** A string that matches the email pattern contains an at sign. *)
Lemma emailRegex_test_at (s : string) :
  emailRegex_test s = true -> In "@"%char (list_ascii_of_string s).
Proof.
  unfold emailRegex_test. intros H.
  apply existsb_exists in H as (r5 & Hin5 & _).
  apply in_flat_map in Hin5 as (r4 & Hin4 & _).
  apply in_flat_map in Hin4 as (r3 & Hin3 & _).
  apply in_flat_map in Hin3 as (r2 & Hin2 & _).
  apply in_flat_map in Hin2 as (r1 & Hin1 & Hlit).
  destruct r1 as [|c r1]; simpl in Hlit; [contradiction|].
  destruct (Ascii.eqb_spec c "@") as [->|Hne]; [|contradiction].
  apply (after_plus_chars s (String "@" r1)); [exact Hin1|]. simpl. auto.
Qed.

Lemma digit_char_not_at (d : Z) : 0 <= d < 10 -> digit_char d <> "@"%char.
Proof.
  intros Hd.
  assert (Hcases : d = 0 \/ d = 1 \/ d = 2 \/ d = 3 \/ d = 4 \/ d = 5 \/ d = 6 \/ d = 7 \/
                   d = 8 \/ d = 9) by lia.
  repeat (destruct Hcases as [->|Hcases]; [vm_compute; discriminate|]).
  subst d. vm_compute. discriminate.
Qed.

Lemma pos_digits_no_at (fuel : nat) (n : Z) (acc : string) :
  ~ In "@"%char (list_ascii_of_string acc) ->
  ~ In "@"%char (list_ascii_of_string (pos_digits fuel n acc)).
Proof.
  revert n acc. induction fuel as [|fuel IH]; simpl; intros n acc Hacc; [exact Hacc|].
  assert (Hstep : ~ In "@"%char
                      (list_ascii_of_string (String (digit_char (n mod 10)) acc))).
  { simpl. intros [Heq|Hin]; [|exact (Hacc Hin)].
    apply (digit_char_not_at (n mod 10)); [|exact Heq].
    apply Z.mod_pos_bound. lia. }
  destruct (n / 10 =? 0); [exact Hstep|]. apply IH. exact Hstep.
Qed.

Lemma Z_to_string_no_at (n : Z) : ~ In "@"%char (list_ascii_of_string (Z_to_string n)).
Proof.
  unfold Z_to_string. destruct (n <? 0).
  - simpl. intros [Heq|Hin]; [discriminate|].
    revert Hin. apply pos_digits_no_at. simpl. tauto.
  - apply pos_digits_no_at. simpl. tauto.
Qed.

(** Among the values D1 can bind, only a string passes the email
    pattern: the SELECT and the INSERT of the handler are reached with a
    string or with a value D1 refuses. *)
Lemma pattern_bindable_is_string (v : value) :
  d1_bindable v = true -> emailRegex_test (to_string v) = true -> exists s, v = VStr s.
Proof.
  destruct v as [| |b|n|s|items|props]; simpl; try discriminate; intros _ H.
  - destruct b; vm_compute in H; discriminate.
  - exfalso. exact (Z_to_string_no_at n (emailRegex_test_at _ H)).
  - eauto.
Qed.




Section RegistrationRuns.

Variable SHA256 : list byte -> list byte.
Variable HMAC_SHA256 : list byte -> list byte -> list byte.
Variable security_headers : list (string * string).

Local Abbreviation handler := (onRequestPost SHA256 HMAC_SHA256 security_headers).



End RegistrationRuns.

Section RegistrationProperties.

Variable SHA256 : list byte -> list byte.
Variable HMAC_SHA256 : list byte -> list byte -> list byte.
Variable security_headers : list (string * string).

Local Abbreviation handler := (onRequestPost SHA256 HMAC_SHA256 security_headers).



(** Only the path through the INSERT answers 201: the request body had
    a string email not in the table, and the row was appended. *)
Lemma register_created_inversion (env : list (string * binding)) (inv : invocation)
    (db : list user_row) :
  status (snd (handler env inv db)) = 201 ->
  exists data email,
    request_json inv = Normal data /\ prop data "email" = VStr email /\
    findByEmail db email = None /\
    handler env inv db =
    ((db ++ [mkRow (generateUUID (random inv)) (prop data "firstName") email
               (hashPassword SHA256 (to_string (prop data "password")))
               (db_now inv) (db_now inv)])%list,
     addSecurityHeaders security_headers
       (json_response 201
          (created_body (generateUUID (random inv)) data
             (generateJWT HMAC_SHA256
                (tokenPayload_of (generateUUID (random inv)) data (now inv))
                (env_text env "JWT_SECRET"))))).
Proof.
  unfold onRequestPost, register_try.
  destruct (negb (env_truthy env "JWT_SECRET")); [discriminate|].
  destruct (negb (env_truthy env "DB")); [discriminate|].
  destruct (request_json inv) as [data|e]; [|discriminate].
  destruct (nullish data); [discriminate|].
  destruct (_ || _); [discriminate|].
  destruct (negb (emailRegex_test _)); [discriminate|].
  unfold select_user, insert_user.
  destruct (env_get env "DB") as [[ | | ]|]; try discriminate.
  destruct (prop data "email") as [| | | |email| |] eqn:Hemail; try discriminate.
  destruct (select_fault inv); [discriminate|].
  destruct (findByEmail db email) eqn:Hfind; [discriminate|].
  destruct (negb (d1_bindable (prop data "firstName"))); [discriminate|].
  destruct (insert_fault inv); [discriminate|].
  intros _. exists data, email. repeat split; assumption.
Qed.

(** C7, for the registration endpoint. Whatever the environment, the
    request, the table and the faults, the response is the 201 success
    response or one of six fixed pairs of status and body, each body
    holding a taxonomy code and a fixed message and nothing else: no part
    of an exception, of the environment or of the request is in it. *)
Theorem registration_errors_generic (env : list (string * binding)) (inv : invocation)
    (db : list user_row) :
  (status (snd (handler env inv db)) = 201 /\
   prop (body (snd (handler env inv db))) "success" = VBool true) \/
  In (status (snd (handler env inv db)), body (snd (handler env inv db))) error_taxonomy.
Proof.
  unfold onRequestPost, register_try, select_user, insert_user, error_taxonomy.
  repeat match goal with
         | |- context [if ?c then _ else _] => destruct c
         | |- context [match ?c with _ => _ end] =>
             lazymatch c with
             | context [match _ with _ => _ end] => fail
             | context [if _ then _ else _] => fail
             | _ => destruct c
             end
         end;
    cbn [fst snd status body respond_error addSecurityHeaders json_response In];
    try (left; split; reflexivity);
    right; tauto.
Qed.

End RegistrationProperties.

(* ===================================================================== *)
(** ** Properties: the token between server and client *)
(* ===================================================================== *)

Lemma code_range (c : ascii) : 0 <= code c < 256.
Proof.
  unfold code. pose proof (N_ascii_bounded c). lia.
Qed.

Lemma list_triples_ind (A : Type) (P : list A -> Prop) :
  P [] -> (forall a, P [a]) -> (forall a b, P [a; b]) ->
  (forall a b c rest, P rest -> P (a :: b :: c :: rest)) ->
  forall l, P l.
Proof.
  intros H0 H1 H2 H3.
  assert (Hall : forall l, P l /\ (forall a, P (a :: l)) /\ (forall a b, P (a :: b :: l))).
  { induction l as [|x l (IH0 & IH1 & IH2)].
    - auto.
    - repeat split; auto. }
  intros l. apply Hall.
Qed.

Lemma in_sextets (n : Z) : 0 <= n < 64 -> In n (map Z.of_nat (seq 0 64)).
Proof.
  intros Hn. apply in_map_iff. exists (Z.to_nat n). split; [lia|].
  apply in_seq. lia.
Qed.

(** No character of the base64 alphabet is a dot. *)
Lemma b64_char_not_dot (n : Z) : 0 <= n < 64 -> b64_char n <> "."%char.
Proof.
  intros Hn.
  assert (Hall : forallb (fun k => negb (Ascii.eqb (b64_char k) "."))
                   (map Z.of_nat (seq 0 64)) = true) by (vm_compute; reflexivity).
  rewrite forallb_forall in Hall. specialize (Hall n (in_sextets n Hn)).
  intros Heq. rewrite Heq in Hall. discriminate.
Qed.

Lemma b64_encode_no_dot (l : list Z) :
  Forall (fun x => 0 <= x < 256) l ->
  ~ In "."%char (list_ascii_of_string (b64_encode l)).
Proof.
  induction l as [|a|a b|a b c rest IH] using list_triples_ind; intros Hl.
  - simpl. tauto.
  - inversion_clear Hl as [|? ? Ha _].
    simpl. intros [Hd|[Hd|[Hd|[Hd|[]]]]]; try discriminate;
      revert Hd; apply b64_char_not_dot; Z.div_mod_to_equations; lia.
  - inversion_clear Hl as [|? ? Ha Hl']. inversion_clear Hl' as [|? ? Hb _].
    simpl. intros [Hd|[Hd|[Hd|[Hd|[]]]]]; try discriminate;
      revert Hd; apply b64_char_not_dot; Z.div_mod_to_equations; lia.
  - inversion_clear Hl as [|? ? Ha Hl']. inversion_clear Hl' as [|? ? Hb Hl''].
    inversion_clear Hl'' as [|? ? Hc Hrest].
    simpl. intros [Hd|[Hd|[Hd|[Hd|Hd]]]];
      [revert Hd; apply b64_char_not_dot; Z.div_mod_to_equations; lia ..|].
    exact (IH Hrest Hd).
Qed.

Lemma btoa_no_dot (s : string) : ~ In "."%char (list_ascii_of_string (btoa s)).
Proof.
  unfold btoa. apply b64_encode_no_dot.
  apply List.Forall_forall. intros x Hx.
  apply in_map_iff in Hx as (c & <- & _). apply code_range.
Qed.

Lemma base64url_chars (s : string) (c : ascii) :
  In c (list_ascii_of_string (base64url s)) ->
  c = "-"%char \/ c = "_"%char \/ In c (list_ascii_of_string s).
Proof.
  induction s as [|a s IH]; simpl; [tauto|].
  destruct (Ascii.eqb a "+"); [|destruct (Ascii.eqb a "/"); [|destruct (Ascii.eqb a "=")]];
    simpl; intros H.
  - destruct H as [<-|H]; [auto|]. destruct (IH H) as [?|[?|?]]; auto.
  - destruct H as [<-|H]; [auto|]. destruct (IH H) as [?|[?|?]]; auto.
  - destruct (IH H) as [?|[?|?]]; auto.
  - destruct H as [<-|H]; [auto|]. destruct (IH H) as [?|[?|?]]; auto.
Qed.

Lemma b64_char_facts (n : Z) :
  0 <= n < 64 ->
  b64_value (b64_char n) = Some n /\
  is_ascii_space (b64_char n) = false /\
  is_eq_sign (b64_char n) = false /\
  Ascii.eqb (b64_char n) "+" = (n =? 62) /\
  Ascii.eqb (b64_char n) "/" = (n =? 63).
Proof.
  intros Hn.
  assert (Hall : forallb b64_char_ok (map Z.of_nat (seq 0 64)) = true)
    by (vm_compute; reflexivity).
  rewrite forallb_forall in Hall. specialize (Hall n (in_sextets n Hn)).
  unfold b64_char_ok in Hall.
  repeat (apply andb_prop in Hall as [Hall ?]).
  destruct (b64_value (b64_char n)) as [m|]; [|discriminate].
  apply Z.eqb_eq in Hall. subst m.
  unfold is_eq_sign.
  repeat match goal with
         | H : negb _ = true |- _ => apply negb_true_iff in H
         | H : Bool.eqb _ _ = true |- _ => apply Bool.eqb_prop in H
         end.
  auto.
Qed.

Lemma sextets_range (l : list Z) :
  Forall (fun x => 0 <= x < 256) l -> Forall (fun x => 0 <= x < 64) (sextets l).
Proof.
  induction l as [|a|a b|a b c rest IH] using list_triples_ind; intros Hl; simpl.
  - constructor.
  - inversion_clear Hl as [|? ? Ha _].
    repeat constructor; Z.div_mod_to_equations; lia.
  - inversion_clear Hl as [|? ? Ha Hl']. inversion_clear Hl' as [|? ? Hb _].
    repeat constructor; Z.div_mod_to_equations; lia.
  - inversion_clear Hl as [|? ? Ha Hl']. inversion_clear Hl' as [|? ? Hb Hl''].
    inversion_clear Hl'' as [|? ? Hc Hrest].
    repeat (constructor; [Z.div_mod_to_equations; lia|]). exact (IH Hrest).
Qed.

(** Every group is printed. *)
Lemma sextets_printed (l : list Z) (x : Z) :
  In x (sextets l) -> In (b64_char x) (list_ascii_of_string (b64_encode l)).
Proof.
  induction l as [|a|a b|a b c rest IH] using list_triples_ind; simpl.
  - tauto.
  - intros [<-|[<-|[]]]; auto.
  - intros [<-|[<-|[<-|[]]]]; auto.
  - intros [<-|[<-|[<-|[<-|H]]]]; auto 6.
Qed.

Lemma sextets_length (l : list Z) : (Z.of_nat (length (sextets l)) mod 4 =? 1) = false.
Proof.
  induction l as [|a|a b|a b c rest IH] using list_triples_ind; try reflexivity.
  change (sextets (a :: b :: c :: rest))
    with (a / 4 :: (a mod 4 * 16 + b / 16) :: (b mod 16 * 4 + c / 64) :: c mod 64
            :: sextets rest).
  cbn [length]. apply Z.eqb_neq. apply Z.eqb_neq in IH.
  intros H. apply IH. rewrite <- H.
  rewrite !Nat2Z.inj_succ. Z.div_mod_to_equations. lia.
Qed.

(** Without [+] and [/] in it, the base64url text is the base64 text
    less its padding. *)
Lemma base64url_b64_encode (l : list Z) :
  Forall (fun x => 0 <= x < 62) (sextets l) ->
  base64url (b64_encode l) = string_of_list_ascii (map b64_char (sextets l)).
Proof.
  assert (Hstep : forall x r, 0 <= x < 62 ->
            base64url (String (b64_char x) r) = String (b64_char x) (base64url r)).
  { intros x r Hx.
    destruct (b64_char_facts x) as (_ & _ & He & Hp & Hs); [lia|].
    simpl. rewrite Hp, Hs.
    replace (x =? 62) with false by (symmetry; apply Z.eqb_neq; lia).
    replace (x =? 63) with false by (symmetry; apply Z.eqb_neq; lia).
    unfold is_eq_sign in He.
    destruct (Ascii.eqb_spec (b64_char x) "=") as [Heq|_]; [|reflexivity].
    rewrite Heq in He. discriminate. }
  induction l as [|a|a b|a b c rest IH] using list_triples_ind; intros Hl.
  - reflexivity.
  - inversion_clear Hl as [|? ? H1 Hl']. inversion_clear Hl' as [|? ? H2 _].
    cbn [b64_encode sextets map string_of_list_ascii].
    rewrite !Hstep by assumption. reflexivity.
  - inversion_clear Hl as [|? ? H1 Hl']. inversion_clear Hl' as [|? ? H2 Hl''].
    inversion_clear Hl'' as [|? ? H3 _].
    cbn [b64_encode sextets map string_of_list_ascii].
    rewrite !Hstep by assumption. reflexivity.
  - change (sextets (a :: b :: c :: rest))
      with (a / 4 :: (a mod 4 * 16 + b / 16) :: (b mod 16 * 4 + c / 64) :: c mod 64
              :: sextets rest) in *.
    inversion_clear Hl as [|? ? H1 Hl']. inversion_clear Hl' as [|? ? H2 Hl''].
    inversion_clear Hl'' as [|? ? H3 Hl3]. inversion_clear Hl3 as [|? ? H4 Hrest].
    change (b64_encode (a :: b :: c :: rest))
      with (String (b64_char (a / 4))
              (String (b64_char (a mod 4 * 16 + b / 16))
                 (String (b64_char (b mod 16 * 4 + c / 64))
                    (String (b64_char (c mod 64)) (b64_encode rest))))).
    rewrite !Hstep by assumption. rewrite (IH Hrest). reflexivity.
Qed.

Lemma b64_values_chars (xs : list Z) :
  Forall (fun x => 0 <= x < 64) xs -> b64_values (map b64_char xs) = Some xs.
Proof.
  induction 1 as [|x xs Hx _ IH]; simpl; [reflexivity|].
  destruct (b64_char_facts x Hx) as [-> _]. rewrite IH. reflexivity.
Qed.

Lemma filter_blanks_chars (xs : list Z) :
  Forall (fun x => 0 <= x < 64) xs ->
  List.filter (fun c => negb (is_ascii_space c)) (map b64_char xs) = map b64_char xs.
Proof.
  induction 1 as [|x xs Hx _ IH]; simpl; [reflexivity|].
  destruct (b64_char_facts x Hx) as (_ & Hsp & _). rewrite Hsp. simpl. rewrite IH. reflexivity.
Qed.

Lemma strip_padding_none (cs : list ascii) :
  Forall (fun c => is_eq_sign c = false) cs -> strip_padding cs = cs.
Proof.
  intros Hall. unfold strip_padding.
  destruct (rev cs) as [|p r] eqn:Hrev; [reflexivity|].
  assert (Hp : is_eq_sign p = false).
  { rewrite List.Forall_forall in Hall. apply Hall. apply in_rev. rewrite Hrev. simpl. auto. }
  rewrite Hp. destruct r; reflexivity.
Qed.

Lemma b64_decode_sextets (l : list Z) :
  Forall (fun x => 0 <= x < 256) l ->
  b64_decode (sextets l) = string_of_list_ascii (map chr l).
Proof.
  induction l as [|a|a b|a b c rest IH] using list_triples_ind; intros Hl.
  - reflexivity.
  - inversion_clear Hl as [|? ? Ha _].
    cbn [sextets b64_decode map string_of_list_ascii]. repeat f_equal.
    Z.div_mod_to_equations. lia.
  - inversion_clear Hl as [|? ? Ha Hl']. inversion_clear Hl' as [|? ? Hb _].
    cbn [sextets b64_decode map string_of_list_ascii].
    repeat f_equal; Z.div_mod_to_equations; lia.
  - inversion_clear Hl as [|? ? Ha Hl']. inversion_clear Hl' as [|? ? Hb Hl''].
    inversion_clear Hl'' as [|? ? Hc Hrest].
    change (sextets (a :: b :: c :: rest))
      with (a / 4 :: (a mod 4 * 16 + b / 16) :: (b mod 16 * 4 + c / 64) :: c mod 64
              :: sextets rest).
    change (b64_decode
              (a / 4 :: (a mod 4 * 16 + b / 16) :: (b mod 16 * 4 + c / 64) :: c mod 64
                 :: sextets rest))
      with (String (chr (a / 4 * 4 + (a mod 4 * 16 + b / 16) / 16))
              (String (chr ((a mod 4 * 16 + b / 16) mod 16 * 16 + (b mod 16 * 4 + c / 64) / 4))
                 (String (chr ((b mod 16 * 4 + c / 64) mod 4 * 64 + c mod 64))
                    (b64_decode (sextets rest))))).
    rewrite (IH Hrest). cbn [map string_of_list_ascii].
    repeat f_equal; Z.div_mod_to_equations; lia.
Qed.

Lemma chr_code (c : ascii) : chr (code c) = c.
Proof. unfold chr, code. rewrite N2Z.id. apply ascii_N_embedding. Qed.

Lemma map_chr_code (cs : list ascii) : map chr (map code cs) = cs.
Proof.
  induction cs as [|c cs IH]; simpl; [reflexivity|]. rewrite chr_code, IH. reflexivity.
Qed.

(** [atob] undoes [btoa] followed by the base64url replacement whenever
    the base64 text has no [+] and no [/]. *)
Lemma atob_base64url_btoa (s : string) :
  ~ In "+"%char (list_ascii_of_string (btoa s)) ->
  ~ In "/"%char (list_ascii_of_string (btoa s)) ->
  atob (base64url (btoa s)) = Normal s.
Proof.
  intros Hplus Hslash. unfold btoa in *.
  set (l := map code (list_ascii_of_string s)) in *.
  assert (Hl : Forall (fun x => 0 <= x < 256) l).
  { apply List.Forall_forall. intros x Hx. apply in_map_iff in Hx as (c & <- & _).
    apply code_range. }
  pose proof (sextets_range l Hl) as H64.
  assert (H62 : Forall (fun x => 0 <= x < 62) (sextets l)).
  { rewrite List.Forall_forall in *. intros x Hx. specialize (H64 x Hx).
    pose proof (sextets_printed l x Hx) as Hprinted.
    destruct (b64_char_facts x H64) as (_ & _ & _ & Hp & Hs).
    destruct (Z.eqb_spec x 62) as [->|H62].
    { apply Ascii.eqb_eq in Hp. rewrite Hp in Hprinted. contradiction. }
    destruct (Z.eqb_spec x 63) as [->|H63].
    { apply Ascii.eqb_eq in Hs. rewrite Hs in Hprinted. contradiction. }
    lia. }
  rewrite (base64url_b64_encode l H62).
  unfold atob. rewrite list_ascii_of_string_of_list_ascii.
  rewrite (filter_blanks_chars _ H64).
  assert (Hnopad : Forall (fun c => is_eq_sign c = false) (map b64_char (sextets l))).
  { apply List.Forall_forall. intros c Hc. apply in_map_iff in Hc as (x & <- & Hx).
    rewrite List.Forall_forall in H64.
    destruct (b64_char_facts x (H64 x Hx)) as (_ & _ & He & _). exact He. }
  rewrite (strip_padding_none _ Hnopad).
  replace (if Z.of_nat (length (map b64_char (sextets l))) mod 4 =? 0
           then map b64_char (sextets l) else map b64_char (sextets l))
    with (map b64_char (sextets l)) by (destruct (_ =? 0); reflexivity).
  rewrite length_map, sextets_length.
  rewrite (b64_values_chars _ H64), (b64_decode_sextets l Hl).
  unfold l. rewrite map_chr_code, string_of_list_ascii_of_string. reflexivity.
Qed.

(** A [+] of base64 becomes a [-] of base64url, a [/] becomes a [_]. *)
Lemma base64url_replaces (s : string) :
  (In "+"%char (list_ascii_of_string s) -> In "-"%char (list_ascii_of_string (base64url s))) /\
  (In "/"%char (list_ascii_of_string s) -> In "_"%char (list_ascii_of_string (base64url s))).
Proof.
  induction s as [|a s [IHp IHs]]; simpl; [tauto|].
  destruct (Ascii.eqb_spec a "+") as [->|Hp]; [simpl; split; intros [H|H]; auto; discriminate|].
  destruct (Ascii.eqb_spec a "/") as [->|Hs]; [simpl; split; intros [H|H]; auto; discriminate|].
  destruct (Ascii.eqb_spec a "=") as [->|He]; simpl.
  - split; intros [H|H]; auto; discriminate.
  - split; intros [H|H]; auto; congruence.
Qed.

Lemma segment_no_dot (s : string) :
  ~ In "."%char (list_ascii_of_string (base64url (btoa s))).
Proof.
  intros H. apply base64url_chars in H as [H|[H|H]]; try discriminate.
  exact (btoa_no_dot s H).
Qed.

Lemma append_cons (x : ascii) (a b : string) : String x a ++ b = String x (a ++ b).
Proof. reflexivity. Qed.

Lemma append_assoc (a b c : string) : (a ++ b) ++ c = a ++ (b ++ c).
Proof.
  induction a as [|x a IH]; [reflexivity|].
  rewrite !append_cons, IH. reflexivity.
Qed.

(** Splitting at the first dot. *)
Lemma split_first_dot (a b : string) :
  ~ In "."%char (list_ascii_of_string a) ->
  split "." (a ++ "." ++ b) = (a :: split "." b)%list.
Proof.
  induction a as [|c a IH]; intros Hno.
  - reflexivity.
  - rewrite append_cons. simpl in *.
    destruct (Ascii.eqb_spec c ".") as [->|Hne]; [exfalso; auto|].
    rewrite IH by tauto. reflexivity.
Qed.

Lemma split_nonempty (sep : ascii) (s : string) : split sep s <> [].
Proof.
  destruct s as [|c s]; simpl; [discriminate|].
  destruct (Ascii.eqb c sep); [discriminate|].
  destruct (split sep s); discriminate.
Qed.

Lemma b64_values_refused (cs : list ascii) (c : ascii) :
  In c cs -> b64_value c = None -> b64_values cs = None.
Proof.
  induction cs as [|a cs IH]; simpl; intros Hin Hc; [contradiction|].
  destruct Hin as [->|Hin].
  - rewrite Hc. reflexivity.
  - rewrite (IH Hin Hc). destruct (b64_value a); reflexivity.
Qed.

Lemma strip_padding_keeps (cs : list ascii) (c : ascii) :
  In c cs -> is_eq_sign c = false -> In c (strip_padding cs).
Proof.
  intros Hin Hc. unfold strip_padding.
  assert (Hrev : In c (rev cs)) by (apply in_rev; rewrite rev_involutive; exact Hin).
  destruct (rev cs) as [|p [|q r]] eqn:Hcs.
  - exact Hin.
  - destruct (is_eq_sign p) eqn:Hp; [|exact Hin].
    destruct Hrev as [->|[]]. congruence.
  - destruct (is_eq_sign p) eqn:Hp; [|exact Hin].
    destruct Hrev as [->|Hrev]; [congruence|].
    destruct (is_eq_sign q) eqn:Hq.
    + destruct Hrev as [->|Hrev]; [congruence|]. apply in_rev in Hrev. exact Hrev.
    + apply in_rev in Hrev. exact Hrev.
Qed.

(** [atob] refuses a string with a character that is neither of the
    base64 alphabet, nor a blank, nor the padding sign. *)
Lemma atob_refuses (s : string) (c : ascii) :
  In c (list_ascii_of_string s) ->
  b64_value c = None -> is_ascii_space c = false -> is_eq_sign c = false ->
  atob s = Throw InvalidCharacterError.
Proof.
  intros Hin Hval Hsp Heq. unfold atob.
  set (cs := List.filter (fun x => negb (is_ascii_space x)) (list_ascii_of_string s)).
  assert (Hcs : In c cs).
  { apply filter_In. rewrite Hsp. auto. }
  set (cs' := if Z.of_nat (length cs) mod 4 =? 0 then strip_padding cs else cs).
  assert (Hcs' : In c cs').
  { unfold cs'. destruct (_ =? 0); [apply strip_padding_keeps|]; assumption. }
  destruct (Z.of_nat (length cs') mod 4 =? 1); [reflexivity|].
  rewrite (b64_values_refused cs' c Hcs' Hval). reflexivity.
Qed.

(** The middle segment of a token issued by [generateJWT]. *)
Lemma generateJWT_payload_segment (HMAC_SHA256 : list byte -> list byte -> list byte)
    (payload : value) (secret : string) :
  segment 1 (split "." (generateJWT HMAC_SHA256 payload secret)) =
  base64url (btoa (to_string (JSON_stringify payload))).
Proof.
  unfold generateJWT. cbv zeta.
  rewrite !append_assoc.
  rewrite split_first_dot by apply segment_no_dot.
  rewrite split_first_dot by apply segment_no_dot.
  reflexivity.
Qed.

(** On a token issued by [generateJWT] whose payload has neither [+]
    nor [/] in its base64 text, the client-side decode is [JSON.parse]
    of the text that [JSON.stringify] gave. *)
Lemma client_decodes_url_safe_payload
    (JSON_parse : string -> completion value)
    (HMAC_SHA256 : list byte -> list byte -> list byte)
    (payload : value) (secret : string) :
  ~ In "+"%char (list_ascii_of_string (btoa (to_string (JSON_stringify payload)))) ->
  ~ In "/"%char (list_ascii_of_string (btoa (to_string (JSON_stringify payload)))) ->
  decode_token JSON_parse (VStr (generateJWT HMAC_SHA256 payload secret)) =
  JSON_parse (to_string (JSON_stringify payload)).
Proof.
  intros Hplus Hslash. unfold decode_token, js_split, cbind.
  rewrite generateJWT_payload_segment.
  rewrite (atob_base64url_btoa _ Hplus Hslash). reflexivity.
Qed.

(** C1, on the inputs where the round trip fails. For every payload
    whose base64 text has a [+] or a [/], every secret, MAC function and
    JSON parser: the token that [generateJWT] issues carries a [-] or a
    [_] in its middle segment (base64url), and the client-side decode,
    which hands that segment to [atob] as it is, throws
    [InvalidCharacterError] instead of returning the payload. *)
Theorem issued_token_rejected_by_client
    (JSON_parse : string -> completion value)
    (HMAC_SHA256 : list byte -> list byte -> list byte)
    (payload : value) (secret : string) :
  In "+"%char (list_ascii_of_string (btoa (to_string (JSON_stringify payload)))) \/
  In "/"%char (list_ascii_of_string (btoa (to_string (JSON_stringify payload)))) ->
  decode_token JSON_parse (VStr (generateJWT HMAC_SHA256 payload secret)) =
  Throw InvalidCharacterError.
Proof.
  intros Hin. unfold decode_token, js_split, cbind.
  rewrite generateJWT_payload_segment.
  destruct (base64url_replaces (btoa (to_string (JSON_stringify payload)))) as [Hp Hs].
  destruct Hin as [Hin|Hin].
  - rewrite (atob_refuses _ "-" (Hp Hin)); reflexivity.
  - rewrite (atob_refuses _ "_" (Hs Hin)); reflexivity.
Qed.

(* ===================================================================== *)
(** ** Properties: reading the persisted session *)
(* ===================================================================== *)

Section SessionProperties.

Variable JSON_parse : string -> completion value.
Variable StringToNumber : string -> number.

Lemma typeof_object_truthy (v : value) :
  truthy v = true -> String.eqb (typeof v) "object" = true ->
  (exists ps, v = VObj ps) \/ (exists items, v = VArr items).
Proof.
  destruct v; simpl; try discriminate; eauto.
Qed.

(** C10. [ApiService.getToken()] never throws: on an absent slot, on
    text that is not JSON, on a parsed value that is not an object and
    on an object without a truthy [token] it answers [null]; an answer
    other than [null] is the [token] field of the JSON object held in
    the slot, and that field is truthy. *)
Theorem getToken_total (ls : gmap string string) :
  (ls !! "auth" = None -> getToken JSON_parse ls = VNull) /\
  (forall raw e, ls !! "auth" = Some raw -> JSON_parse raw = Throw e ->
                 getToken JSON_parse ls = VNull) /\
  (forall raw parsed, ls !! "auth" = Some raw -> JSON_parse raw = Normal parsed ->
                      (forall ps, parsed <> VObj ps) ->
                      getToken JSON_parse ls = VNull) /\
  (forall raw parsed, ls !! "auth" = Some raw -> JSON_parse raw = Normal parsed ->
                      truthy (prop parsed "token") = false ->
                      getToken JSON_parse ls = VNull) /\
  (getToken JSON_parse ls <> VNull ->
   exists raw ps,
     ls !! "auth" = Some raw /\ JSON_parse raw = Normal (VObj ps) /\
     truthy (prop (VObj ps) "token") = true /\
     getToken JSON_parse ls = prop (VObj ps) "token").
Proof.
  unfold getToken. repeat split.
  - intros ->. reflexivity.
  - intros raw e -> ->. destruct (String.eqb raw ""); reflexivity.
  - intros raw parsed -> -> Hno.
    destruct (String.eqb raw ""); [reflexivity|].
    destruct parsed; simpl; try reflexivity.
    + destruct b; reflexivity.
    + destruct (n =? 0); reflexivity.
    + destruct (String.eqb s ""); reflexivity.
    + exfalso. eapply Hno. reflexivity.
  - intros raw parsed -> -> Hfalsy.
    destruct (String.eqb raw ""); [reflexivity|].
    destruct (negb (truthy parsed) || negb (String.eqb (typeof parsed) "object"));
      [reflexivity|].
    unfold js_or. rewrite Hfalsy. reflexivity.
  - destruct (ls !! "auth") as [raw|]; [|congruence].
    destruct (String.eqb raw ""); [congruence|].
    destruct (JSON_parse raw) as [parsed|e] eqn:Hparse; [|congruence].
    destruct (negb (truthy parsed) || negb (String.eqb (typeof parsed) "object"))
      eqn:Hobj; [congruence|].
    apply orb_false_elim in Hobj as [Ht Ho].
    apply negb_false_iff in Ht. apply negb_false_iff in Ho.
    unfold js_or.
    destruct (truthy (prop parsed "token")) eqn:Htok; [|congruence].
    intros _.
    destruct (typeof_object_truthy parsed Ht Ho) as [[ps ->]|[items ->]].
    + exists raw, ps. auto.
    + simpl in Htok. discriminate.
Qed.

(* ------------------------------------------------------------------- *)
(** *** Session restore *)

Lemma removeItem_cleared (w : World) : getItem AUTH_KEY (removeItem AUTH_KEY w) = None.
Proof. unfold getItem, removeItem, with_storage. simpl. apply lookup_delete_eq. Qed.

Lemma restore_absent (t : Z) (w : World) :
  getItem AUTH_KEY w = None ->
  initializeAuth JSON_parse StringToNumber t w = setIsLoading false (removeItem AUTH_KEY w).
Proof. unfold initializeAuth. intros ->. reflexivity. Qed.

Lemma restore_sentinel (t : Z) (w : World) (raw : string) :
  getItem AUTH_KEY w = Some raw ->
  raw = "" \/ raw = "undefined" \/ raw = "null" ->
  initializeAuth JSON_parse StringToNumber t w = setIsLoading false (removeItem AUTH_KEY w).
Proof.
  unfold initializeAuth. intros -> [->|[->| ->]]; reflexivity.
Qed.

Lemma restore_syntax_error (t : Z) (w : World) (raw : string) (e : thrown) :
  getItem AUTH_KEY w = Some raw -> JSON_parse raw = Throw e ->
  initializeAuth JSON_parse StringToNumber t w = setIsLoading false (removeItem AUTH_KEY w).
Proof.
  unfold initializeAuth. intros -> ->.
  destruct (_ || _); reflexivity.
Qed.

Lemma restore_not_object (t : Z) (w : World) (raw : string) (parsed : value) :
  getItem AUTH_KEY w = Some raw -> JSON_parse raw = Normal parsed ->
  truthy parsed = false \/ String.eqb (typeof parsed) "object" = false ->
  initializeAuth JSON_parse StringToNumber t w = setIsLoading false (removeItem AUTH_KEY w).
Proof.
  unfold initializeAuth. intros -> -> H.
  destruct (String.eqb raw "" || String.eqb raw "undefined" || String.eqb raw "null");
    [reflexivity|].
  destruct H as [-> | ->]; simpl; [reflexivity|].
  rewrite orb_true_r. reflexivity.
Qed.

Lemma restore_persisted (t : Z) (w : World) (parsed : value) :
  persisted JSON_parse w parsed ->
  initializeAuth JSON_parse StringToNumber t w =
  setIsLoading false
    (if truthy (prop parsed "token") && truthy (prop parsed "user") then
       check_token JSON_parse StringToNumber t (prop parsed "token") (prop parsed "user") w
     else w).
Proof.
  intros (raw & Hget & Hraw & Hparse & Ht & Ho).
  unfold initializeAuth. rewrite Hget, Hraw, Hparse, Ht, Ho. reflexivity.
Qed.

(** A token that does not decode, or whose payload is [null], clears
    the slot. *)
Lemma restore_bad_token (t : Z) (w : World) (parsed : value) (e : thrown) :
  persisted JSON_parse w parsed ->
  truthy (prop parsed "token") = true -> truthy (prop parsed "user") = true ->
  (do payload <- decode_token JSON_parse (prop parsed "token"); get payload "exp") = Throw e ->
  initializeAuth JSON_parse StringToNumber t w = setIsLoading false (removeItem AUTH_KEY w).
Proof.
  intros Hp Htok Husr Hdec.
  rewrite (restore_persisted t w parsed Hp), Htok, Husr. simpl.
  unfold check_token.
  destruct (decode_token JSON_parse (prop parsed "token")) as [payload|e'];
    simpl in *; [|reflexivity].
  rewrite Hdec. reflexivity.
Qed.

(** C2. In the expiry check of session restore, a persisted session
    whose token carries the expiry [e] (seconds) is discarded exactly
    when [e * 1000 < now]: the slot is cleared and the state stays as it
    was. Otherwise, so also when [e * 1000] equals [now] and when the
    token expires one second after [now], the session is restored:
    token and user are taken from the record, the state is
    authenticated and the slot is kept. *)
Theorem restore_expiry_check (t : Z) (w : World) (tok usr : value) (e : Z) :
  persisted_session JSON_parse w tok usr e ->
  (e * 1000 < t ->
     initializeAuth JSON_parse StringToNumber t w =
     setIsLoading false (removeItem AUTH_KEY w)) /\
  (t <= e * 1000 ->
     initializeAuth JSON_parse StringToNumber t w =
     setIsLoading false (setIsAuthenticated true (setUser usr (setToken tok w)))) /\
  (e * 1000 = t \/ e * 1000 = t + 1000 ->
     isAuthenticated (initializeAuth JSON_parse StringToNumber t w) = true /\
     token (initializeAuth JSON_parse StringToNumber t w) = tok /\
     user (initializeAuth JSON_parse StringToNumber t w) = usr /\
     localStorage (initializeAuth JSON_parse StringToNumber t w) = localStorage w).
Proof.
  intros (parsed & payload & Hp & Htok & Husr & Ht & Hu & Hdec & Hexp).
  assert (Hrun : initializeAuth JSON_parse StringToNumber t w =
                 setIsLoading false
                   (if e * 1000 <? t then removeItem AUTH_KEY w
                    else setIsAuthenticated true (setUser usr (setToken tok w)))).
  { rewrite (restore_persisted t w parsed Hp), Htok, Husr, Ht, Hu. simpl.
    unfold check_token. rewrite Hdec. simpl. rewrite Hexp. simpl.
    unfold isExpired. simpl.
    destruct (e * 1000 <? t); reflexivity. }
  rewrite Hrun. split; [|split].
  - intros Hlt. apply Z.ltb_lt in Hlt. rewrite Hlt. reflexivity.
  - intros Hle. apply Z.ltb_ge in Hle. rewrite Hle. reflexivity.
  - intros H.
    replace (e * 1000 <? t) with false by (symmetry; apply Z.ltb_ge; lia).
    repeat split.
Qed.

(** A token whose payload has no [exp] never expires: [undefined * 1000]
    is [NaN], and no comparison with [NaN] holds. *)
Lemma restore_token_without_expiry (t : Z) (w : World) (parsed payload : value) :
  persisted JSON_parse w parsed ->
  truthy (prop parsed "token") = true -> truthy (prop parsed "user") = true ->
  decode_token JSON_parse (prop parsed "token") = Normal payload ->
  get payload "exp" = Normal VUndefined ->
  initializeAuth JSON_parse StringToNumber t w =
  setIsLoading false
    (setIsAuthenticated true (setUser (prop parsed "user") (setToken (prop parsed "token") w))).
Proof.
  intros Hp Htok Husr Hdec Hexp.
  rewrite (restore_persisted t w parsed Hp), Htok, Husr. simpl.
  unfold check_token. rewrite Hdec. simpl. rewrite Hexp. reflexivity.
Qed.

(** C3, at the case the code misses. A persisted value that parses to
    an object without a truthy [token] or without a truthy [user] is no
    session, and restore leaves it in the slot: nothing but
    [isLoading] changes. *)
Theorem restore_keeps_incomplete_record (t : Z) (w : World) (parsed : value) :
  persisted JSON_parse w parsed ->
  truthy (prop parsed "token") && truthy (prop parsed "user") = false ->
  initializeAuth JSON_parse StringToNumber t w = setIsLoading false w /\
  getItem AUTH_KEY (initializeAuth JSON_parse StringToNumber t w) = getItem AUTH_KEY w.
Proof.
  intros Hp Hmissing.
  rewrite (restore_persisted t w parsed Hp), Hmissing. split; reflexivity.
Qed.

End SessionProperties.


(* ===================================================================== *)
(** ** Properties: login, register, logout, refresh *)
(* ===================================================================== *)

Section OperationProperties.

Variable JSON_parse : string -> completion value.

Lemma logout_with_clears (tok : value) (w : World) :
  getItem AUTH_KEY (logout_with tok w) = None /\ anonymous (logout_with tok w).
Proof.
  unfold logout_with, anonymous, getItem. simpl.
  split; [|auto]. apply lookup_delete_eq.
Qed.

(** The [try] of [refreshToken] either throws or replaces the token. *)
Lemma refresh_try_cases (tok : value) (net : completion http_response)
    (quota : option thrown) (w : World) :
  (exists w1 e, refresh_try JSON_parse tok net quota w = (w1, Throw e)) \/
  (exists w1, refresh_try JSON_parse tok net quota w = (w1, Normal tt)).
Proof.
  unfold refresh_try.
  match goal with |- context [match ?c with Normal _ => _ | Throw _ => _ end] =>
    destruct c as [[currentAuth newToken]|e] end; eauto.
Qed.

Lemma refresh_try_rejected (tok : value) (net : completion http_response)
    (quota : option thrown) (w : World) :
  (exists e, net = Throw e) \/ (exists r, net = Normal r /\ ok r = false) ->
  exists w1 e, refresh_try JSON_parse tok net quota w = (w1, Throw e).
Proof.
  unfold refresh_try. intros [[e ->]|[r [-> Hok]]]; simpl.
  - eauto.
  - rewrite Hok. simpl. eauto.
Qed.

(** C4. [refreshToken()] without a current token returns failure and
    changes nothing, not even the list of requests sent. With a token, a
    rejected or non-OK refresh request makes it return failure, and
    whenever it returns failure it has run [logout()]: the persisted
    session is gone and the in-memory token, user and authenticated flag
    are reset. *)
Theorem refreshToken_failure_logs_out (net : completion http_response)
    (quota : option thrown) (w : World) :
  (truthy (token w) = false -> refreshToken JSON_parse net quota w = (w, false)) /\
  (truthy (token w) = true ->
   ((exists e, net = Throw e) \/ (exists r, net = Normal r /\ ok r = false) ->
    snd (refreshToken JSON_parse net quota w) = false) /\
   (snd (refreshToken JSON_parse net quota w) = false ->
    (exists w1, fst (refreshToken JSON_parse net quota w) = logout_with (token w) w1) /\
    getItem AUTH_KEY (fst (refreshToken JSON_parse net quota w)) = None /\
    anonymous (fst (refreshToken JSON_parse net quota w)))).
Proof.
  unfold refreshToken. split.
  - intros ->. reflexivity.
  - intros ->. simpl. split.
    + intros Hrej.
      destruct (refresh_try_rejected (token w) net quota w Hrej) as (w1 & e & ->).
      reflexivity.
    + destruct (refresh_try_cases (token w) net quota w) as [(w1 & e & ->)|(w1 & ->)];
        simpl; [|discriminate].
      intros _. split; [eauto|]. apply logout_with_clears.
Qed.

(** [login] and [register]: the [try] either throws, having done no more
    than send the request, or succeeds. *)
Lemma sign_in_try_cases (endpoint : string) (request_body : value) (fallback : string)
    (logs_error : bool) (net : completion http_response) (quota : option thrown)
    (w : World) :
  (exists e,
     sign_in_try endpoint request_body fallback logs_error net quota w =
     (send (mkRequest endpoint "POST" json_headers (JSON_stringify request_body)) w,
      Throw e)) \/
  (exists w' usr,
     sign_in_try endpoint request_body fallback logs_error net quota w =
     (w', Normal (VObj [("success", VBool true); ("user", usr)]))).
Proof.
  unfold sign_in_try.
  match goal with |- context [match ?c with Normal _ => _ | Throw _ => _ end] =>
    destruct c as [[tok usr]|e] end; eauto.
Qed.

Lemma sign_in_try_rejected (endpoint : string) (request_body : value) (fallback : string)
    (logs_error : bool) (net : completion http_response) (quota : option thrown)
    (w : World) :
  (exists e, net = Throw e) \/
  (exists r, net = Normal r /\ ((exists e, json r = Throw e) \/ ok r = false)) ->
  exists e,
    sign_in_try endpoint request_body fallback logs_error net quota w =
    (send (mkRequest endpoint "POST" json_headers (JSON_stringify request_body)) w,
     Throw e).
Proof.
  unfold sign_in_try. intros [[e ->]|[r [-> [[e He]|Hok]]]]; simpl.
  - eauto.
  - rewrite He. simpl. eauto.
  - destruct (json r) as [data|e]; simpl; [|eauto].
    rewrite Hok. simpl.
    destruct logs_error; destruct (get data "error"); simpl; eauto.
Qed.

Lemma same_session_send (r : http_request) (w : World) : same_session w (send r w).
Proof. unfold same_session. simpl. auto. Qed.

Lemma sign_in_failure (endpoint : string) (request_body : value) (fallback : string)
    (logs_error : bool) (net : completion http_response) (quota : option thrown)
    (w : World) :
  ((exists e, net = Throw e) \/
   (exists r, net = Normal r /\ ((exists e, json r = Throw e) \/ ok r = false)) ->
   exists msg,
     snd (sign_in endpoint request_body fallback logs_error net quota w) =
     VObj [("success", VBool false); ("error", VStr msg)]) /\
  (prop (snd (sign_in endpoint request_body fallback logs_error net quota w)) "success"
   = VBool false ->
   same_session w (fst (sign_in endpoint request_body fallback logs_error net quota w))).
Proof.
  unfold sign_in. split.
  - intros Hrej.
    destruct (sign_in_try_rejected endpoint request_body fallback logs_error net quota w Hrej)
      as (e & ->). simpl. eauto.
  - destruct (sign_in_try_cases endpoint request_body fallback logs_error net quota w)
      as [(e & ->)|(w' & usr & ->)]; simpl.
    + intros _. apply same_session_send.
    + discriminate.
Qed.

(** A call that succeeds writes the token and the user of the response
    together: into the slot, as one record, and into the state. *)
Lemma sign_in_success (endpoint : string) (request_body : value) (fallback : string)
    (logs_error : bool) (net : completion http_response) (quota : option thrown)
    (w : World) :
  prop (snd (sign_in endpoint request_body fallback logs_error net quota w)) "success"
  = VBool true ->
  exists tok usr,
    getItem AUTH_KEY (fst (sign_in endpoint request_body fallback logs_error net quota w))
    = Some (stringify (VObj [("token", tok); ("user", usr)])) /\
    token (fst (sign_in endpoint request_body fallback logs_error net quota w)) = tok /\
    user (fst (sign_in endpoint request_body fallback logs_error net quota w)) = usr /\
    isAuthenticated (fst (sign_in endpoint request_body fallback logs_error net quota w))
    = true.
Proof.
  unfold sign_in, sign_in_try.
  match goal with |- context [match ?c with Normal _ => _ | Throw _ => _ end] =>
    destruct c as [[tok usr]|e] end; simpl; [|discriminate].
  intros _. exists tok, usr. repeat split.
  unfold getItem. simpl. apply lookup_insert_eq.
Qed.

(** C9. A [login] or [register] call that fails because the request is
    rejected (network error), the response body does not parse, or the
    status is not OK returns the structured failure with an error
    message; and every call that returns a failure leaves the persisted
    session record, the token, the user and the authenticated flag as
    they were. *)
Theorem failed_sign_in_leaves_session (firstName email password : value)
    (net : completion http_response) (quota : option thrown) (w : World) :
  ((exists e, net = Throw e) \/
   (exists r, net = Normal r /\ ((exists e, json r = Throw e) \/ ok r = false)) ->
   (exists msg,
      snd (login email password net quota w) =
      VObj [("success", VBool false); ("error", VStr msg)]) /\
   (exists msg,
      snd (register firstName email password net quota w) =
      VObj [("success", VBool false); ("error", VStr msg)])) /\
  (prop (snd (login email password net quota w)) "success" = VBool false ->
   same_session w (fst (login email password net quota w))) /\
  (prop (snd (register firstName email password net quota w)) "success" = VBool false ->
   same_session w (fst (register firstName email password net quota w))).
Proof.
  unfold login, register. split; [|split].
  - intros Hrej. split; eapply sign_in_failure; exact Hrej.
  - apply sign_in_failure.
  - apply sign_in_failure.
Qed.

End OperationProperties.

(* ===================================================================== *)
(** ** Properties: migration *)
(* ===================================================================== *)

Lemma progress_reports_keep_listeners (events : list value) (w : World) :
  listeners (fold_left on_progress events w) = listeners w /\
  isRunning (migrationStatus (fold_left on_progress events w)) = isRunning (migrationStatus w).
Proof.
  revert w. induction events as [|ev events IH]; intros w; simpl; [auto|].
  destruct (IH (on_progress w ev)) as [-> ->]. auto.
Qed.

Lemma fresh_listener_not_in (l : list nat) : ~ In (fresh_listener l) l.
Proof.
  unfold fresh_listener. intros Hin.
  assert (Hall : Forall (fun k => (k <= list_max l)%nat) l)
    by (apply list_max_le; apply Nat.le_refl).
  rewrite List.Forall_forall in Hall. specialize (Hall _ Hin). simpl in Hall. lia.
Qed.

Lemma filter_other_listeners (id : nat) (l : list nat) :
  ~ In id l -> List.filter (fun x => negb (Nat.eqb x id)) l = l.
Proof.
  induction l as [|x l IH]; simpl; intros Hnot; [reflexivity|].
  destruct (Nat.eqb_spec x id) as [->|Hne]; simpl.
  - exfalso. apply Hnot. auto.
  - rewrite IH; [reflexivity|]. intros Hin. apply Hnot. auto.
Qed.

Lemma assoc_set_prop (k : string) (v : value) (ps : list (string * value)) :
  assoc k (set_prop k v ps) = Some v.
Proof.
  induction ps as [|[k' v'] ps IH]; simpl.
  - rewrite String.eqb_refl. reflexivity.
  - destruct (String.eqb k k') eqn:Hk; simpl.
    + rewrite String.eqb_refl. reflexivity.
    + rewrite Hk. exact IH.
Qed.

(** When [migratePrompts()] resolves, the listener is unregistered and the
    terminal status is [completed], or [completed_with_errors] when some
    item failed. *)
Lemma runMigration_resolved (events : list value) (result : migration_result) (w : World) :
  isRunning (migrationStatus w) = false ->
  listeners (fst (runMigration events (Normal result) w)) = listeners w /\
  snd (runMigration events (Normal result) w) = Normal result /\
  isRunning (migrationStatus (fst (runMigration events (Normal result) w))) = false /\
  prop (progress (migrationStatus (fst (runMigration events (Normal result) w)))) "status" =
  VStr (if failed result >? 0 then "completed_with_errors" else "completed").
Proof.
  intros Hidle. unfold runMigration. rewrite Hidle. simpl.
  destruct (progress_reports_keep_listeners events
              (with_listeners (cons (fresh_listener (listeners w)))
                 (setMigrationStatus
                    (fun prev => mkMigrationStatus (isNeeded prev) true
                                   (progress_object "starting" 0 0 0) (completed prev) VNull)
                    w))) as [Hl _].
  rewrite Hl. simpl.
  rewrite Nat.eqb_refl. simpl.
  rewrite (filter_other_listeners _ _ (fresh_listener_not_in (listeners w))).
  repeat split.
Qed.

Lemma runMigration_already_running (events : list value)
    (outcome : completion migration_result) (w : World) :
  isRunning (migrationStatus w) = true ->
  runMigration events outcome w = (w, Throw (ThrownError "Migration is already running" "Error")).
Proof. intros Hrun. unfold runMigration. rewrite Hrun. reflexivity. Qed.

(** C8, at the case the code misses. When [migratePrompts()] rejects,
    [runMigration()] records the status [failed], leaves the Running
    state and re-throws the error, but the progress listener it
    registered is still registered afterwards: [removeListener()] is only
    reached when the migration resolves. *)
Theorem runMigration_rejected_keeps_listener (events : list value) (e : thrown) (w : World) :
  isRunning (migrationStatus w) = false ->
  listeners (fst (runMigration events (Throw e) w)) =
  (fresh_listener (listeners w) :: listeners w)%list /\
  ~ In (fresh_listener (listeners w)) (listeners w) /\
  snd (runMigration events (Throw e) w) = Throw e /\
  isRunning (migrationStatus (fst (runMigration events (Throw e) w))) = false /\
  error (migrationStatus (fst (runMigration events (Throw e) w))) = VStr (error_message e) /\
  prop (progress (migrationStatus (fst (runMigration events (Throw e) w)))) "status" =
  VStr "failed".
Proof.
  intros Hidle. unfold runMigration. rewrite Hidle. simpl.
  destruct (progress_reports_keep_listeners events
              (with_listeners (cons (fresh_listener (listeners w)))
                 (setMigrationStatus
                    (fun prev => mkMigrationStatus (isNeeded prev) true
                                   (progress_object "starting" 0 0 0) (completed prev) VNull)
                    w))) as [Hl _].
  rewrite Hl. simpl.
  split; [reflexivity|]. split; [apply fresh_listener_not_in|].
  repeat split. rewrite assoc_set_prop. reflexivity.
Qed.

(* ===================================================================== *)
(** ** Concrete runs: reading the persisted session *)
(* ===================================================================== *)

Lemma alice_session_persisted :
  persisted_session json_parse
    (stored (session_record (token_expiring 1700000000) alice))
    (token_expiring 1700000000) alice 1700000000.
Proof.
  exists (VObj [("token", token_expiring 1700000000); ("user", alice)]).
  eexists. split.
  - exists (session_record (token_expiring 1700000000) alice).
    repeat split; vm_compute; reflexivity.
  - repeat split; vm_compute; reflexivity.
Defined.

Lemma getToken_total_witness :
  getToken json_parse ∅ = VNull /\
  getToken json_parse {[ "auth" := "not json" ]} = VNull /\
  getToken json_parse {[ "auth" := "[1,2]" ]} = VNull /\
  getToken json_parse {[ "auth" := "{}" ]} = VNull /\
  exists raw ps,
    ({[ "auth" := session_record (token_expiring 1700000000) alice ]} : gmap string string)
      !! "auth" = Some raw /\
    json_parse raw = Normal (VObj ps) /\
    truthy (prop (VObj ps) "token") = true /\
    getToken json_parse {[ "auth" := session_record (token_expiring 1700000000) alice ]}
    = prop (VObj ps) "token".
Proof.
  split; [|split; [|split; [|split]]].
  - apply (proj1 (getToken_total json_parse ∅)). reflexivity.
  - apply (proj1 (proj2 (getToken_total json_parse {[ "auth" := "not json" ]}))
            "not json" SyntaxError); vm_compute; reflexivity.
  - apply (proj1 (proj2 (proj2 (getToken_total json_parse {[ "auth" := "[1,2]" ]})))
            "[1,2]" (VArr [VNum 1; VNum 2])); try (vm_compute; reflexivity).
    intros ps; discriminate.
  - apply (proj1 (proj2 (proj2 (proj2 (getToken_total json_parse {[ "auth" := "{}" ]}))))
            "{}" (VObj [])); vm_compute; reflexivity.
  - apply (proj2 (proj2 (proj2 (proj2 (getToken_total json_parse
             {[ "auth" := session_record (token_expiring 1700000000) alice ]}))))).
    vm_compute. discriminate.
Defined.

(** At [exp * 1000 = now] the session is restored, not discarded. *)
Lemma expiry_equal_now_is_valid :
  1700000000 * 1000 = 1700000000000 /\
  isAuthenticated
    (initializeAuth json_parse string_to_number 1700000000000
       (stored (session_record (token_expiring 1700000000) alice))) = true /\
  getItem AUTH_KEY
    (initializeAuth json_parse string_to_number 1700000000000
       (stored (session_record (token_expiring 1700000000) alice)))
  = Some (session_record (token_expiring 1700000000) alice).
Proof. vm_compute. repeat split. Qed.

Lemma restore_expiry_check_witness :
  initializeAuth json_parse string_to_number 1700000000001
    (stored (session_record (token_expiring 1700000000) alice))
  = setIsLoading false
      (removeItem AUTH_KEY (stored (session_record (token_expiring 1700000000) alice))) /\
  token (initializeAuth json_parse string_to_number 1699999999000
           (stored (session_record (token_expiring 1700000000) alice)))
  = token_expiring 1700000000.
Proof.
  split.
  - apply (proj1 (restore_expiry_check json_parse string_to_number 1700000000001 _ _ _ _
                    alice_session_persisted)).
    reflexivity.
  - apply (proj2 (proj2 (restore_expiry_check json_parse string_to_number 1699999999000
                           _ _ _ _ alice_session_persisted))).
    right. reflexivity.
Defined.

(** The program writes such a record itself: a refresh on an empty slot
    stores a token without a user, and the next restore neither accepts
    nor removes it. *)
Lemma refreshed_record_without_user_survives_restore :
  let w := fst (refreshToken json_parse (Normal refreshed) None signed_in_no_slot) in
  let w' := initializeAuth json_parse string_to_number 1700000001000 (reload w) in
  getItem AUTH_KEY w = Some (stringify (VObj [("token", token_expiring 1700086400)])) /\
  isAuthenticated w' = false /\
  getItem AUTH_KEY w' = getItem AUTH_KEY w.
Proof. vm_compute. repeat split. Qed.

Lemma restore_keeps_incomplete_record_witness :
  getItem AUTH_KEY (initializeAuth json_parse string_to_number 1700000000000 (stored "{}"))
  = Some "{}".
Proof.
  assert (Hp : persisted json_parse (stored "{}") (VObj [])).
  { exists "{}". repeat split; vm_compute; reflexivity. }
  rewrite (proj2 (restore_keeps_incomplete_record json_parse string_to_number
                    1700000000000 (stored "{}") (VObj []) Hp eq_refl)).
  vm_compute. reflexivity.
Defined.

(* ===================================================================== *)
(** ** Concrete runs: operations of the session manager *)
(* ===================================================================== *)

Lemma refreshToken_failure_logs_out_witness :
  refreshToken json_parse (Normal unauthorized) None (initial_world ∅)
  = (initial_world ∅, false) /\
  snd (refreshToken json_parse (Normal unauthorized) None signed_in) = false /\
  getItem AUTH_KEY (fst (refreshToken json_parse (Throw network_down) None signed_in)) = None /\
  anonymous (fst (refreshToken json_parse (Throw network_down) None signed_in)).
Proof.
  split; [|split].
  - apply (proj1 (refreshToken_failure_logs_out json_parse (Normal unauthorized) None
                    (initial_world ∅))).
    reflexivity.
  - apply (proj1 (proj2 (refreshToken_failure_logs_out json_parse (Normal unauthorized)
                           None signed_in) eq_refl)).
    right. exists unauthorized. split; reflexivity.
  - apply (proj2 (proj2 (refreshToken_failure_logs_out json_parse (Throw network_down)
                           None signed_in) eq_refl)).
    reflexivity.
Defined.

Lemma failed_sign_in_leaves_session_witness :
  (exists msg,
     snd (login (VStr "alice@example.com") (VStr "wrong") (Normal unauthorized) None
            (initial_world ∅))
     = VObj [("success", VBool false); ("error", VStr msg)]) /\
  same_session signed_in
    (fst (register (VStr "Alice") (VStr "alice@example.com") (VStr "pw123")
            (Throw network_down) None signed_in)).
Proof.
  split.
  - apply (proj1 (proj1 (failed_sign_in_leaves_session (VStr "Alice")
                           (VStr "alice@example.com") (VStr "wrong") (Normal unauthorized)
                           None (initial_world ∅))
                   (or_intror (ex_intro _ unauthorized
                                 (conj eq_refl (or_intror eq_refl)))))).
  - apply (proj2 (proj2 (failed_sign_in_leaves_session (VStr "Alice")
                           (VStr "alice@example.com") (VStr "pw123") (Throw network_down)
                           None signed_in))).
    reflexivity.
Defined.

Lemma runMigration_rejected_keeps_listener_witness :
  listeners (fst (runMigration [progress_object "running" 3 1 0]
                    (Throw (ThrownError "quota exceeded" "Error")) signed_in))
  = [1%nat].
Proof.
  apply (proj1 (runMigration_rejected_keeps_listener [progress_object "running" 3 1 0]
                  (ThrownError "quota exceeded" "Error") signed_in eq_refl)).
Defined.


(* ===================================================================== *)
(** ** Concrete runs: registration *)
(* ===================================================================== *)






(** The payload that the registration endpoint builds for the email
    [a~b@example.com]: its token is one the client cannot decode. *)
Lemma issued_token_rejected_by_client_witness :
  decode_token json_parse
    (VStr (generateJWT example_hmac
             (tokenPayload_of "12345678-9abc-4def-8123-456789abcdef"
                (registration_body "Al" "a~b@example.com" "pw123") 1700000000000)
             "s3cr3t"))
  = Throw InvalidCharacterError.
Proof.
  apply issued_token_rejected_by_client.
  left. vm_compute.
  repeat (first [left; reflexivity | right]).
Defined.

(** The debugging endpoint answers with the names of the environment's
    keys, and with the message and the stack of an exception. *)
Lemma debug_endpoint_exposes_diagnostics :
  status (simple_onRequestPost misconfigured_env alice_request) = 500 /\
  prop (prop (body (simple_onRequestPost misconfigured_env alice_request)) "error")
    "availableKeys" = VArr [VStr "DB"; VStr "STRIPE_API_KEY"] /\
  (forall code message,
     body (simple_onRequestPost misconfigured_env alice_request) <> error_body code message) /\
  status (simple_onRequestPost production_env garbled_request) = 500 /\
  prop (prop (body (simple_onRequestPost production_env garbled_request)) "error") "details"
  = VStr "Unexpected token < in JSON at position 0" /\
  prop (prop (body (simple_onRequestPost production_env garbled_request)) "error") "stack"
  = VStr "SyntaxError: Unexpected token < in JSON at position 0 at onRequestPost (functions/api/auth/simple-register.js:49:32)" /\
  (forall code message,
     body (simple_onRequestPost production_env garbled_request) <> error_body code message).
Proof.
  repeat split; try (intros code message; vm_compute; discriminate).
Qed.

(** The failure of C1 end to end: the server registers the user and
    answers 201, the client stores the session, and after a reload one
    second later, with the token good for another day, restore finds the
    token undecodable and throws the session away. *)
Lemma registered_session_lost_on_reload :
  let r := snd (onRequestPost example_sha256 example_hmac [] production_env tilde_request []) in
  let w := fst (register (VStr "Al") (VStr "a~b@example.com") (VStr "pw123")
                  (Normal (delivered r)) None (initial_world ∅)) in
  let w' := initializeAuth json_parse string_to_number 1700000001000 (reload w) in
  status r = 201 /\
  isAuthenticated w = true /\
  getItem AUTH_KEY w = Some (session_record (prop (body r) "token") (prop (body r) "user")) /\
  isAuthenticated w' = false /\ getItem AUTH_KEY w' = None.
Proof. vm_compute. repeat split. Qed.
